(** * Verification of the EEG denoising helpers (denoising_h.py)

    The Python module is a thin layer over pandas, numpy, matplotlib and MNE.
    Each helper is embedded as a program ([Prog]) whose steps are the
    statements of the helper: calls into the external libraries ([Ext]),
    accesses to the mutable [Raw] object behind a reference ([load], [store],
    [alloc]), output on standard output ([print]) and exceptions ([Raise],
    [try_except]).  The external libraries are not part of the module: a
    program is run against a handler that answers every library call, and the
    theorems quantify over all handlers.

    Numbers (samples, frequencies, times) are rationals.  Where the module
    computes with the samples (the channel mean), the rounding of every
    floating-point operation is explicit: a function [fl] from the exact
    result to the value that is stored.  Infinities and NaN values of
    computed results are outside the number model; a missing cell of a data
    frame is [None]. *)

From Stdlib Require Import ZArith QArith Qround Qabs Qpower List String Ascii Bool Lia Lqa.
From Stdlib Require Import DecimalString Floats.
Import ListNotations.

Open Scope string_scope.
Open Scope list_scope.
Open Scope Z_scope.

(** ** Text *)

(** An f-string keeps its template: literal pieces and formatted holes.
    Floating-point holes are kept symbolic with their format specification. *)
Inductive Frag : Type :=
| Lit (s : string)
| Int (z : Z)
| Num (q : Q)
| NumFmt (spec : string) (q : Q).

Definition Msg := list Frag.

Definition render_int (z : Z) : string :=
  NilZero.string_of_int (Z.to_int z).

(** Text of a message all of whose holes are integers or strings. *)
Fixpoint render (m : Msg) : option string :=
  match m with
  | [] => Some ""
  | Lit s :: m' => option_map (append s) (render m')
  | Int z :: m' => option_map (append (render_int z)) (render m')
  | Num _ :: _ => None
  | NumFmt _ _ :: _ => None
  end.

(** Text is modelled byte by byte.  [strip], [lower] and [replace_char] are
    those of Python on ASCII text; the theorems about column labels and
    event names say so where it matters. *)
Definition is_ascii (c : ascii) : bool := Nat.ltb (nat_of_ascii c) 128.

Fixpoint ascii_text (s : string) : bool :=
  match s with
  | EmptyString => true
  | String c s' => (is_ascii c && ascii_text s')%bool
  end.

(** White space among the ASCII characters. *)
Definition is_space (c : ascii) : bool :=
  let n := nat_of_ascii c in
  (Nat.eqb n 32 || (Nat.leb 9 n && Nat.leb n 13) || (Nat.leb 28 n && Nat.leb n 31))%bool.

Fixpoint lstrip (s : string) : string :=
  match s with
  | EmptyString => EmptyString
  | String c s' => if is_space c then lstrip s' else s
  end.

Fixpoint rstrip (s : string) : string :=
  match s with
  | EmptyString => EmptyString
  | String c s' =>
      match rstrip s' with
      | EmptyString => if is_space c then EmptyString else String c EmptyString
      | r => String c r
      end
  end.

(** [str.strip()] on ASCII text *)
Definition strip (s : string) : string := rstrip (lstrip s).

Definition lower_ascii (c : ascii) : ascii :=
  let n := nat_of_ascii c in
  if (Nat.leb 65 n && Nat.leb n 90)%bool then ascii_of_nat (n + 32) else c.

(** [str.lower()] on ASCII text *)
Fixpoint lower (s : string) : string :=
  match s with
  | EmptyString => EmptyString
  | String c s' => String (lower_ascii c) (lower s')
  end.

(** [s.replace(a, b)] for single characters [a] and [b] *)
Fixpoint replace_char (a b : ascii) (s : string) : string :=
  match s with
  | EmptyString => EmptyString
  | String c s' => String (if Ascii.eqb c a then b else c) (replace_char a b s')
  end.

(** ** Exceptions *)

(** Instances of Python's [Exception]; [str(e)] is [exn_msg e]. *)
Inductive ExnClass : Type :=
| ValueError | KeyError | IndexError | OSError | RuntimeError | AttributeError.

Record Exn : Type := mkExn { exn_class : ExnClass; exn_msg : Msg }.

Inductive result (A : Type) : Type :=
| Ok (a : A)
| Raised (e : Exn).
Arguments Ok {A} a.
Arguments Raised {A} e.

(** ** Data *)

(** A numpy array of shape (n_channels, n_times). *)
Definition array1 := list Q.
Definition array2 := list array1.

(** [len(x)] *)
Definition len {A} (l : list A) : Z := Z.of_nat (List.length l).

(** A pandas data frame: column labels and rows; a missing cell is [None]. *)
Record DataFrame : Type := mkDF {
  columns : list string;
  rows : list (list (option Q))
}.

(** [mne.Info] as built by [mne.create_info]. *)
Record Info : Type := mkInfo {
  ch_names : list string;
  sfreq : Q;
  ch_types : list string
}.

(** The state of an [mne.io.Raw] object. *)
Record RawObj : Type := mkRaw {
  _data : array2;
  info : Info
}.

Definition loc := nat.

(** Handles of objects owned by the libraries. *)
Definition Epochs := nat.
Definition TFR := nat.
Definition Figure := nat.

(** ** Calls into the external libraries *)

Inductive Call : Type -> Type :=
| pd_read_csv (path : string) (skiprows : Z) (engine : string) : Call DataFrame
| raw_save (r : loc) (fname : string) (overwrite : bool) : Call unit
| raw_resample (r : loc) (new_sfreq : Q) (npad : string) : Call unit
| mne_filter_detrend (data : array2) (order : Z) : Call array2
| raw_filter (r : loc) (l_freq h_freq : Q) (picks : string) : Call unit
| raw_notch_filter (r : loc) (freqs : list Q) (picks : string) : Call unit
| np_std (data : array2) : Call Q
| raw_crop (r : loc) (tmin tmax : Q) : Call unit
| raw_plot (r : loc) (scalings : list (string * Q)) (n_channels : Z)
           (duration : Q) (title : Msg) (show : bool) : Call Figure
| fig_savefig (f : Figure) (path : string) (dpi : Z) : Call unit
| plt_close (f : Figure) : Call unit
| plt_show : Call unit
| mne_make_fixed_length_epochs (r : loc) (duration overlap : Q) : Call Epochs
| epochs_compute_tfr (ep : Epochs) (method : string) (freqs : list Q)
                     (n_cycles time_bandwidth : Q) (return_itc : bool) : Call TFR
| tfr_average (p : TFR) : Call TFR
| tfr_plot (p : TFR) (baseline : option Q * option Q) (mode : string)
           (title : string) : Call Figure.

(** A call together with its result type, as recorded in a trace. *)
Inductive Event : Type :=
| Called {X : Type} (c : Call X).

(** ** Programs *)

(** Steps on the interpreter's own state: the store of [Raw] objects and
    standard output. *)
Inductive Prim : Type -> Type :=
| load (r : loc) : Prim RawObj
| store (r : loc) (o : RawObj) : Prim unit
| alloc (o : RawObj) : Prim loc
| print (m : Msg) : Prim unit.

Inductive Prog (A : Type) : Type :=
| Ret (a : A)
| Raise (e : Exn)
| Ext {X : Type} (c : Call X) (k : result X -> Prog A)
| Do {X : Type} (p : Prim X) (k : result X -> Prog A).
Arguments Ret {A} a.
Arguments Raise {A} e.
Arguments Ext {A X} c k.
Arguments Do {A X} p k.

Fixpoint bind {A B} (p : Prog A) (f : A -> Prog B) : Prog B :=
  match p with
  | Ret a => f a
  | Raise e => Raise e
  | Ext c k => Ext c (fun x => bind (k x) f)
  | Do q k => Do q (fun x => bind (k x) f)
  end.

(** [try: p except Exception as e: hd e] *)
Fixpoint try_except {A} (p : Prog A) (hd : Exn -> Prog A) : Prog A :=
  match p with
  | Ret a => Ret a
  | Raise e => hd e
  | Ext c k => Ext c (fun x => try_except (k x) hd)
  | Do q k => Do q (fun x => try_except (k x) hd)
  end.

(** An exception of a step is raised where the step is made. *)
Definition reraise {X} (x : result X) : Prog X :=
  match x with Ok v => Ret v | Raised e => Raise e end.

Definition call {X} (c : Call X) : Prog X := Ext c reraise.
Definition prim {X} (p : Prim X) : Prog X := Do p reraise.

Declare Scope prog_scope.
Delimit Scope prog_scope with prog.
Notation "x <- p ;; q" := (bind p (fun x => q))
  (at level 61, p at next level, right associativity) : prog_scope.
Notation "p ;; q" := (bind p (fun _ => q))
  (at level 61, right associativity) : prog_scope.
Open Scope prog_scope.

(** ** Running a program *)

Fixpoint update {A} (l : list A) (i : nat) (x : A) : list A :=
  match l, i with
  | [], _ => []
  | _ :: l', O => x :: l'
  | y :: l', S i' => y :: update l' i' x
  end.

(** A reference outside the store does not arise in Python; the interpreter
    answers it with an exception so that running a program is total. *)
Definition dangling : Exn :=
  mkExn AttributeError [Lit "reference to no object"].

Section Semantics.

(** State of the world outside the interpreter: files, figures, ... *)
Context {Env : Type}.

Record World : Type := mkWorld {
  heap : list RawObj;
  stdout : list Msg;
  env : Env
}.

(** The libraries: every call gets a result or an exception, and may
    change the world. *)
Definition Handler := forall X, Call X -> World -> result X * World.

Definition set_heap (w : World) (hp : list RawObj) : World :=
  mkWorld hp (stdout w) (env w).

Definition prim_step {X} (p : Prim X) (w : World) : result X * World :=
  match p in Prim X return result X * World with
  | load r =>
      match nth_error (heap w) r with
      | Some o => (Ok o, w)
      | None => (Raised dangling, w)
      end
  | store r o =>
      match nth_error (heap w) r with
      | Some _ => (Ok tt, set_heap w (update (heap w) r o))
      | None => (Raised dangling, w)
      end
  | alloc o => (Ok (List.length (heap w)), set_heap w (heap w ++ [o]))
  | print m => (Ok tt, mkWorld (heap w) (stdout w ++ [m]) (env w))
  end.

Definition Outcome (A : Type) : Type := (result A * World * list Event)%type.

Variable h : Handler.

(** Result, final world and the library calls made, in order. *)
Fixpoint run {A} (p : Prog A) (w : World) : Outcome A :=
  match p with
  | Ret a => (Ok a, w, [])
  | Raise e => (Raised e, w, [])
  | Ext c k =>
      let '(x, w1) := h _ c w in
      let '(res, w2, t) := run (k x) w1 in
      (res, w2, Called c :: t)
  | Do q k =>
      let '(x, w1) := prim_step q w in run (k x) w1
  end.

(** Sequencing: the second program runs in the world the first one left,
    and only if the first one returned. *)
Definition then_run {A B} (first : Outcome A)
    (second : A -> World -> Outcome B) : Outcome B :=
  match first with
  | (Ok a, w1, t1) =>
      let '(res, w2, t2) := second a w1 in (res, w2, t1 ++ t2)
  | (Raised e, w1, t1) => (Raised e, w1, t1)
  end.

Definition catch_run {A} (first : Outcome A)
    (handler : Exn -> World -> Outcome A) : Outcome A :=
  match first with
  | (Ok a, w1, t1) => (Ok a, w1, t1)
  | (Raised e, w1, t1) =>
      let '(res, w2, t2) := handler e w1 in (res, w2, t1 ++ t2)
  end.

End Semantics.

Arguments World Env : clear implicits.
Arguments Handler Env : clear implicits.
Arguments Outcome Env A : clear implicits.

(** ** The module *)

(** [raw.get_data()] *)
Definition get_data (raw : loc) : Prog array2 :=
  o <- prim (load raw) ;; Ret (_data o).

(** [raw._data = data] *)
Definition set_data (raw : loc) (data : array2) : Prog unit :=
  o <- prim (load raw) ;; prim (store raw (mkRaw data (info o))).

Module DataPreprocess.

Definition expected_samples : Z := 1400000.

(** The position of the column with the label [name].  pandas selects every
    column that carries the label; the theorems that depend on the selection
    are stated for frames in which one column carries it. *)
Fixpoint index_of (name : string) (cols : list string) : option nat :=
  match cols with
  | [] => None
  | c :: cols' =>
      if String.eqb c name then Some O else option_map S (index_of name cols')
  end.

(** The cell of a row in column [i]; a short row is padded with missing
    values. *)
Definition cell (i : nat) (row : list (option Q)) : option Q :=
  match nth_error row i with
  | Some c => c
  | None => None
  end.

Definition present (i : nat) (row : list (option Q)) : bool :=
  match cell i row with
  | Some _ => true
  | None => false
  end.

(** [df.dropna(subset=[col])], [col] being column [i] *)
Definition dropna (i : nat) (rs : list (list (option Q))) :=
  filter (present i) rs.

(** [df[col].values]: the cell of every row in column [i], a missing one
    as NaN ([None]). *)
Definition values (i : nat) (rs : list (list (option Q))) : list (option Q) :=
  map (cell i) rs.

(** The entries of an array that holds no NaN, as numbers. *)
Definition numbers (a : list (option Q)) : array1 :=
  flat_map (fun c => match c with Some v => [v] | None => [] end) a.

Definition count_mismatch (expected actual : Z) : Exn :=
  mkExn ValueError
    [Lit "Expected "; Int expected; Lit " samples, but got "; Int actual;
     Lit " samples."].

Definition remove_missing (csv_path : string) : Prog array1 :=
  df <- call (pd_read_csv csv_path 11 "python") ;;
  let df := mkDF (map strip (columns df)) (rows df) in
  match index_of "Volt" (columns df) with
  | None => Raise (mkExn KeyError [Lit "['Volt']"])
  | Some volt =>
      let df := mkDF (columns df) (dropna volt (rows df)) in
      let eeg_data := values volt (rows df) in
      if negb (len eeg_data =? expected_samples)
      then Raise (count_mismatch expected_samples (len eeg_data))
      else Ret (numbers eeg_data)
  end.

(** [sfreq = 5000] *)
Definition sfreq_at_construction : Q := 5000.

(** [mne.create_info] *)
Definition create_info (names : list string) (rate : Q) (types : list string)
  : Info := mkInfo names rate types.

(** [eeg_data.reshape(1, -1)] *)
Definition reshape_one_row (a : array1) : array2 := [a].

(** [mne.io.RawArray(data, info)]: a new object in the store. *)
Definition RawArray (data : array2) (i : Info) : Prog loc :=
  prim (alloc (mkRaw data i)).

Definition convert_to_fif (eeg_data : array1) : Prog (loc * Msg + Msg) :=
  try_except
    (let sfreq := sfreq_at_construction in
     let info := create_info ["EEG"] sfreq ["eeg"] in
     let eeg_data := reshape_one_row eeg_data in
     raw <- RawArray eeg_data info ;;
     let fif_path := "eeg_data_raw.fif" in
     call (raw_save raw fif_path true) ;;
     let message := [Lit "CSV converted to FIF and saved at "; Lit fif_path] in
     Ret (inl (raw, message)))
    (fun e => Ret (inr (Lit "Error occurred: " :: exn_msg e))).

End DataPreprocess.

Module Filter.

(** [new_sfreq=5000] *)
Definition default_new_sfreq : Q := 5000.

Definition apply_downsampling (raw : loc) (new_sfreq : Q) : Prog loc :=
  call (raw_resample raw new_sfreq "auto") ;;
  prim (print [Lit "Data downsampled to "; Num new_sfreq; Lit " Hz."]) ;;
  Ret raw.

Definition apply_detrend (raw : loc) : Prog loc :=
  data <- get_data raw ;;
  data <- call (mne_filter_detrend data 1) ;;
  set_data raw data ;;
  Ret raw.

Definition apply_bandpass_filter (raw : loc) : Prog loc :=
  call (raw_filter raw 0.5 30 "eeg") ;;
  Ret raw.

Definition apply_notch_filter (raw : loc) : Prog loc :=
  call (raw_notch_filter raw [50; 60]%Q "eeg") ;;
  Ret raw.

Definition apply_all_filters (raw : loc) : Prog loc :=
  raw <- apply_detrend raw ;;
  raw <- apply_notch_filter raw ;;
  raw <- apply_bandpass_filter raw ;;
  Ret raw.

(** Element-wise sum of two rows in floating-point arithmetic: every sum is
    rounded by [fl]. *)
Fixpoint add_rows (fl : Q -> Q) (a b : array1) : array1 :=
  match a, b with
  | x :: a', y :: b' => fl (x + y)%Q :: add_rows fl a' b'
  | _, _ => []
  end.

(** [np.mean(data, axis=0)]: the rows are added up one after the other and
    the sum is divided by the number of rows, every operation rounded by
    [fl]. *)
Definition np_mean_axis0 (fl : Q -> Q) (data : array2) : array1 :=
  match data with
  | [] => []
  | row :: rest =>
      map (fun s => fl (s / inject_Z (len data))%Q)
        (fold_left (add_rows fl) rest row)
  end.

(** [fl] is the rounding of the floating-point type of the samples. *)
Definition average_signal (fl : Q -> Q) (raw : loc) : Prog array1 :=
  data <- get_data raw ;;
  let avg_data := np_mean_axis0 fl data in
  prim (print [Lit "Averaged signal computed. Length: "; Int (len avg_data);
               Lit " samples."]) ;;
  Ret avg_data.

End Filter.

(** [max(a, b)] and [min(a, b)] of Python: the first argument unless the
    second is strictly beyond it. *)
Definition py_max (a b : Q) : Q := if Qle_bool b a then a else b.
Definition py_min (a b : Q) : Q := if Qle_bool a b then a else b.

(** Number of samples per channel. *)
Definition n_times (o : RawObj) : nat :=
  match _data o with
  | [] => O
  | row :: _ => List.length row
  end.

(** [raw.times]: the time of every sample, in seconds. *)
Definition times (o : RawObj) : list Q :=
  map (fun i => inject_Z (Z.of_nat i) / sfreq (info o))%Q (seq 0 (n_times o)).

(** [a[-1]] *)
Definition last_item (a : list Q) : Prog Q :=
  match a with
  | [] => Raise (mkExn IndexError [Lit "index -1 is out of bounds"])
  | _ => Ret (last a 0%Q)
  end.

Module Plot.

Definition plot_cropped_event_segment (raw : loc) (event_name : string)
    (start_time end_time : Q) : Prog unit :=
  let start_time := py_max 0 start_time in
  o <- prim (load raw) ;;
  t_last <- last_item (times o) ;;
  let end_time := py_min t_last end_time in
  let duration := (end_time - start_time)%Q in
  data <- get_data raw ;;
  std_dev <- call (np_std data) ;;
  let dynamic_scaling := (std_dev * 2)%Q in
  let custom_scalings := [("eeg", dynamic_scaling)] in
  prim (print [Lit "Using dynamic scaling: "; NumFmt ".2e" dynamic_scaling]) ;;
  prim (print [Lit "Cropping and plotting "; Lit event_name; Lit " from ";
               Num start_time; Lit "s to "; Num end_time; Lit "s"]) ;;
  copy <- prim (load raw) ;;
  cropped_raw <- prim (alloc copy) ;;
  call (raw_crop cropped_raw start_time end_time) ;;
  fig <- call (raw_plot cropped_raw custom_scalings 1 duration
                 [Lit "EEG Signal: "; Lit event_name; Lit " (Cropped)"] false) ;;
  let save_path :=
    ("wu_venv/ssEEG/denoising_MNE/output/"
       ++ replace_char " " "_" (lower event_name)
       ++ "_cropped_segment.png")%string in
  call (fig_savefig fig save_path 300) ;;
  call (plt_close fig) ;;
  prim (print [Lit "Saved cropped plot for "; Lit event_name; Lit " at ";
               Lit save_path]).

End Plot.

(** [np.linspace(start, stop, num)] *)
Definition np_linspace (start stop : Q) (num : nat) : list Q :=
  map (fun i => start + inject_Z (Z.of_nat i)
                        * ((stop - start) / inject_Z (Z.of_nat (num - 1))))%Q
      (seq 0 num).

Module FFT.

Definition tfr_done : Msg :=
  [Lit "TFR analysis and averaged plotting completed."].

Definition tfr_warning (e : Exn) : Msg :=
  Lit "An error occurred while performing TFR analysis: " :: exn_msg e.

(** The statements under [try:]. *)
Definition tfr_body (raw : loc) : Prog unit :=
  prim (print [Lit "Performing Time-Frequency Analysis using Multitaper method..."]) ;;
  epochs <- call (mne_make_fixed_length_epochs raw 3.0 1.0) ;;
  power <- call (epochs_compute_tfr epochs "multitaper"
                   (np_linspace 0.5 40 100) 1.5 2.0 false) ;;
  power_avg <- call (tfr_average power) ;;
  fig <- call (tfr_plot power_avg (None, Some 0%Q) "logratio"
                 "Averaged TFR Multitaper") ;;
  call plt_show ;;
  let save_path :=
    "wu_venv/ssEEG/denoising_MNE/output/tfr_multitaper_color_plot.png" in
  prim (print tfr_done).

Definition compute_tfr_multitaper (raw : loc) : Prog unit :=
  try_except (tfr_body raw) (fun e => prim (print (tfr_warning e))).

End FFT.

(** ** What the specification says, as definitions *)

(** The voltages of the rows that have one, in the order of the rows. *)
Definition present_volts (volt : nat) (rs : list (list (option Q))) : array1 :=
  flat_map
    (fun row =>
       match DataPreprocess.cell volt row with
       | Some v => [v]
       | None => []
       end) rs.

(** The voltage column that ingestion extracts from a data frame: labels
    trimmed, rows without a voltage left out. *)
Definition volt_column (df : DataFrame) : option array1 :=
  match DataPreprocess.index_of "Volt" (map strip (columns df)) with
  | Some volt => Some (present_volts volt (rows df))
  | None => None
  end.

(** The number of columns whose label is "Volt" once it is trimmed. *)
Definition volt_labels (df : DataFrame) : nat :=
  count_occ string_dec (map strip (columns df)) "Volt".

(** All labels of the frame are ASCII text. *)
Definition ascii_labels (df : DataFrame) : Prop :=
  Forall (fun label => ascii_text label = true) (columns df).

Definition Qsum (l : list Q) : Q := fold_right Qplus 0%Q l.

(** Arithmetic mean of the channel values at time step [t]. *)
Definition mean_at (data : array2) (t : nat) : Q :=
  (Qsum (map (fun channel => nth t channel 0%Q) data) / inject_Z (len data))%Q.

(** Sum of the absolute values of the channel values at time step [t]. *)
Definition abs_sum_at (data : array2) (t : nat) : Q :=
  Qsum (map (fun channel => Qabs (nth t channel 0%Q)) data).

(** A rounding with relative error at most [u]: the standard model of
    floating-point arithmetic away from overflow and underflow. *)
Definition rounds_within (u : Q) (fl : Q -> Q) : Prop :=
  forall q, (Qabs (fl q - q) <= u * Qabs q)%Q.

(** [(1 + u)^k - 1]: how far [k] roundings can carry a result. *)
Fixpoint rounding_growth (u : Q) (k : nat) : Q :=
  match k with
  | O => 0
  | S k' => (1 + u) * rounding_growth u k' + u
  end%Q.

(** Rounding to the nearest integer, ties to the even one. *)
Definition round_half_even (q : Q) : Z :=
  let f := Qfloor q in
  match (q - inject_Z f ?= 1 # 2)%Q with
  | Lt => f
  | Gt => f + 1
  | Eq => if Z.even f then f else f + 1
  end.

Definition pow2 (e : Z) : Q := (2 ^ e)%Q.

(** [2^52 <= |q| / 2^e < 2^53] *)
Definition in_binade (q : Q) (e : Z) : bool :=
  let m := (Qabs q / pow2 e)%Q in
  (Qle_bool (inject_Z (2 ^ 52)) m && negb (Qle_bool (inject_Z (2 ^ 53)) m))%bool.

Definition binade (q : Q) : option Z :=
  let e0 := Z.log2 (Z.abs (Qnum q)) - Z.log2 (Zpos (Qden q)) - 52 in
  find (in_binade q) [e0 - 1; e0; e0 + 1].

(** Rounding to 53 significant bits, to nearest and ties to even: the
    rounding of binary64 for results that neither overflow nor fall below
    the normal range. *)
Definition round53 (q : Q) : Q :=
  match binade q with
  | Some e => Qred (inject_Z (round_half_even (q / pow2 e)) * pow2 e)
  | None => Qred q
  end.

(** The unit roundoff of binary64, [2^-53]. *)
Definition unit_roundoff : Q := 1 # 9007199254740992.

(** Half the sampling rate. *)
Definition nyquist (o : RawObj) : Q := (sfreq (info o) / 2)%Q.

Section Contracts.

Context {Env : Type}.
Variable h : Handler Env.

(** A stage rejects its input itself: it raises without having called a
    library and without having touched the world. *)
Definition fails_before_delegating {A} (p : Prog A) (w : World Env) : Prop :=
  exists e, run h p w = (Raised e, w, []).

(** The exception [e] leaves the program. *)
Definition propagates {A} (p : Prog A) (w : World Env) (e : Exn) : Prop :=
  fst (fst (run h p w)) = Raised e.

(** A conditioning stage takes a container and a world to an outcome. *)
Definition Stage : Type := loc -> World Env -> Outcome Env loc.

Definition stage (f : loc -> Prog loc) : Stage := fun raw => run h (f raw).

(** [compose g f]: [f] first, then [g] on the container that [f] returned,
    in the world that [f] left; nothing of [g] if [f] raised. *)
Definition compose (g f : Stage) : Stage :=
  fun raw w => then_run (f raw w) g.

(** Documented behaviour of the libraries that the theorems rely on. *)

(** [Raw.notch_filter] works in place and keeps length and rate. *)
Definition notch_keeps_shape : Prop :=
  forall r freqs picks w w1 o,
    nth_error (heap w) r = Some o ->
    h _ (raw_notch_filter r freqs picks) w = (Ok tt, w1) ->
    exists o1, nth_error (heap w1) r = Some o1
               /\ n_times o1 = n_times o
               /\ sfreq (info o1) = sfreq (info o).

(** [Raw.save] writes a file and leaves the objects alone. *)
Definition save_keeps_store : Prop :=
  forall r fname overwrite w w1,
    h _ (raw_save r fname overwrite) w = (Ok tt, w1) -> heap w1 = heap w.

(** After [Raw.resample] the object has the requested rate. *)
Definition resample_sets_rate : Prop :=
  forall r new_sfreq npad w w1 o,
    nth_error (heap w) r = Some o ->
    h _ (raw_resample r new_sfreq npad) w = (Ok tt, w1) ->
    exists o1, nth_error (heap w1) r = Some o1
               /\ sfreq (info o1) = new_sfreq.

End Contracts.

(** ** A small laboratory

    An environment in which the programs can be run on concrete recordings.
    Its libraries check their arguments the way MNE documents it; the
    numerical routines are stand-ins that keep the shape of the data. *)

Module Lab.

Record LabEnv : Type := mkLab {
  csv_files : list (string * DataFrame);
  disk_full : bool;
  saved : list string;
  figures : nat
}.

Definition W := World LabEnv.

Fixpoint find_file (path : string) (fs : list (string * DataFrame))
  : option DataFrame :=
  match fs with
  | [] => None
  | (p, df) :: fs' => if String.eqb p path then Some df else find_file path fs'
  end.

Definition no_such_file : Exn := mkExn OSError [Lit "No such file or directory"].
Definition no_space : Exn := mkExn OSError [Lit "No space left on device"].
Definition above_nyquist : Exn :=
  mkExn ValueError [Lit "frequency must be less than the Nyquist frequency"].
Definition bad_crop : Exn :=
  mkExn ValueError [Lit "tmin must be less than or equal to tmax and to the max time"].
Definition too_short : Exn :=
  mkExn ValueError [Lit "No epochs can be made from the data"].

Definition with_saved (w : W) (path : string) : W :=
  mkWorld (heap w) (stdout w)
    (mkLab (csv_files (env w)) (disk_full (env w)) (path :: saved (env w))
       (figures (env w))).

Definition new_figure (w : W) : result Figure * W :=
  (Ok (figures (env w)),
   mkWorld (heap w) (stdout w)
     (mkLab (csv_files (env w)) (disk_full (env w)) (saved (env w))
        (S (figures (env w))))).

(** Work on the object behind [r]. *)
Definition on_object {X} (w : W) (r : loc) (f : RawObj -> result X * W)
  : result X * W :=
  match nth_error (heap w) r with
  | Some o => f o
  | None => (Raised dangling, w)
  end.

Definition resized (n : nat) (row : array1) : array1 :=
  firstn n (row ++ repeat 0%Q n).

Definition new_length (o : RawObj) (new_sfreq : Q) : nat :=
  Z.to_nat (Qfloor (inject_Z (Z.of_nat (n_times o)) * new_sfreq / sfreq (info o))).

Definition in_window (o : RawObj) (tmin tmax : Q) (i : nat) : bool :=
  let t := (inject_Z (Z.of_nat i) / sfreq (info o))%Q in
  (Qle_bool tmin t && Qle_bool t tmax)%bool.

Definition crop_row (o : RawObj) (tmin tmax : Q) (row : array1) : array1 :=
  map snd (filter (fun ix => in_window o tmin tmax (fst ix))
             (combine (seq 0 (List.length row)) row)).

Definition lab : Handler LabEnv :=
  fun X c =>
    match c in Call X return W -> result X * W with
    | pd_read_csv path _ _ => fun w =>
        match find_file path (csv_files (env w)) with
        | Some df => (Ok df, w)
        | None => (Raised no_such_file, w)
        end
    | raw_save r fname _ => fun w =>
        if disk_full (env w) then (Raised no_space, w)
        else (Ok tt, with_saved w fname)
    | raw_resample r new_sfreq _ => fun w =>
        on_object w r (fun o =>
          (Ok tt,
           set_heap w
             (update (heap w) r
                (mkRaw (map (resized (new_length o new_sfreq)) (_data o))
                   (mkInfo (ch_names (info o)) new_sfreq (ch_types (info o)))))))
    | mne_filter_detrend data _ => fun w => (Ok data, w)
    | raw_filter r l_freq h_freq _ => fun w =>
        on_object w r (fun o =>
          if Qle_bool (nyquist o) h_freq then (Raised above_nyquist, w)
          else (Ok tt, w))
    | raw_notch_filter r freqs _ => fun w =>
        on_object w r (fun o =>
          if existsb (Qle_bool (nyquist o)) freqs then (Raised above_nyquist, w)
          else (Ok tt, w))
    | np_std _ => fun w => (Ok 1%Q, w)
    | raw_crop r tmin tmax => fun w =>
        on_object w r (fun o =>
          if (Qle_bool tmin tmax && Qle_bool tmin (last (times o) 0%Q))%bool
          then (Ok tt,
                set_heap w
                  (update (heap w) r
                     (mkRaw (map (crop_row o tmin tmax) (_data o)) (info o))))
          else (Raised bad_crop, w))
    | raw_plot _ _ _ _ _ _ => new_figure
    | fig_savefig _ path _ => fun w => (Ok tt, with_saved w path)
    | plt_close _ => fun w => (Ok tt, w)
    | plt_show => fun w => (Ok tt, w)
    | mne_make_fixed_length_epochs r duration _ => fun w =>
        on_object w r (fun o =>
          if Qle_bool (duration * sfreq (info o)) (inject_Z (Z.of_nat (n_times o)))
          then (Ok O, w)
          else (Raised too_short, w))
    | epochs_compute_tfr ep _ _ _ _ _ => fun w => (Ok ep, w)
    | tfr_average p => fun w => (Ok p, w)
    | tfr_plot _ _ _ _ => new_figure
    end.

(** One channel at [rate] Hz. *)
Definition recording (rate : Q) (samples : array1) : RawObj :=
  mkRaw [samples] (mkInfo ["EEG"] rate ["eeg"]).

(** The expected number of samples, as a natural number. *)
Definition full_count : nat := Z.to_nat DataPreprocess.expected_samples.

Definition full_session : DataFrame :=
  mkDF ["Time"; " Volt "] (repeat [Some 0%Q; Some 1%Q] full_count).

Definition short_session : DataFrame :=
  mkDF ["Time"; " Volt "]
    [[Some 0%Q; Some 1%Q]; [Some 1%Q; None]; [Some 2%Q; Some 3%Q]].

Definition bench (objects : list RawObj) (full : bool) : W :=
  mkWorld objects [] (mkLab [("short.csv", short_session)] full [] O).

(** A world that holds a recording of the expected length. *)
Definition archive : W :=
  mkWorld [] [] (mkLab [("session.csv", full_session)] false [] O).

(** Eleven samples at 1 Hz: the times are 0 s to 10 s. *)
Definition ten_seconds : RawObj :=
  recording 1 [0; 1; 2; 3; 4; 5; 4; 3; 2; 1; 0]%Q.

(** Three samples at 100 Hz: the Nyquist limit is 50 Hz. *)
Definition slow : RawObj := recording 100 [1; 2; 3]%Q.

(** Three samples at 5000 Hz. *)
Definition fast : RawObj := recording 5000 [1; 2; 3]%Q.

(** Two channels. *)
Definition stereo : RawObj :=
  mkRaw [[1; 2; 3]; [3; 6; 0]]%Q (mkInfo ["A"; "B"] 5000 ["eeg"; "eeg"]).

(** The binary64 number nearest to 0.1, and three channels that hold it. *)
Definition tenth : Q := 7205759403792794 # 72057594037927936.

Definition three_tenths : RawObj :=
  mkRaw [[tenth]; [tenth]; [tenth]]
    (mkInfo ["A"; "B"; "C"] 5000 ["eeg"; "eeg"; "eeg"]).

End Lab.

(** ** More of the module, and what its runs are asked about *)

Module Events.

(** [get_events_dict()]: the name of every event with its start and its end,
    in seconds, in the order of the dictionary. *)
Definition get_events_dict : list (string * (Q * Q)) :=
  [("Sound On", (0, 40)); ("Sound Off", (40, 113));
   ("Touch Whiskers", (113, 173)); ("Stop Touching", (173, 280))]%Q.

End Events.

(** Length of the rows of an array: [data.shape[1]]. *)
Definition row_length (data : array2) : nat :=
  match data with
  | [] => O
  | row :: _ => List.length row
  end.

(** The path under which a cropped segment is saved (line 154). *)
Definition cropped_save_path (event_name : string) : string :=
  ("wu_venv/ssEEG/denoising_MNE/output/"
     ++ replace_char " " "_" (lower event_name)
     ++ "_cropped_segment.png")%string.

(** The container and the window of a crop request. *)
Definition crop_request (ev : Event) : option (loc * Q * Q) :=
  match ev with
  | Called c =>
      match c with
      | raw_crop r tmin tmax => Some (r, tmin, tmax)
      | _ => None
      end
  end.

(** The file that a call writes, if it writes one. *)
Definition written_file (ev : Event) : option string :=
  match ev with
  | Called c =>
      match c with
      | raw_save _ fname _ => Some fname
      | fig_savefig _ path _ => Some path
      | _ => None
      end
  end.

(** A crop request, if the event is one, is for a container other than
    [raw] and for a window inside [0, t_last] that does not end before it
    starts. *)
Definition crops_copy_within (raw : loc) (t_last : Q) (ev : Event) : Prop :=
  match crop_request ev with
  | Some (r, tmin, tmax) =>
      r <> raw /\ (0 <= tmin)%Q /\ (tmin <= tmax)%Q /\ (tmax <= t_last)%Q
  | None => True
  end.

(** Windows that follow one another without gap or overlap. *)
Fixpoint consecutive (from : Q) (windows : list (Q * Q)) : bool :=
  match windows with
  | [] => true
  | (a, b) :: rest =>
      (Qeq_bool from a && negb (Qle_bool b a) && consecutive b rest)%bool
  end.

Section FilterContracts.

Context {Env : Type}.
Variable h : Handler Env.

(** [mne.filter.detrend] is a function of its array: it leaves the world
    alone, and the rows of its result are as long as those it was given. *)
Definition detrend_keeps_shape : Prop :=
  forall data order w data1 w1,
    h _ (mne_filter_detrend data order) w = (Ok data1, w1) ->
    w1 = w /\ row_length data1 = row_length data.

(** [Raw.filter] works in place and keeps length and rate. *)
Definition filter_keeps_shape : Prop :=
  forall r l_freq h_freq picks w w1 o,
    nth_error (heap w) r = Some o ->
    h _ (raw_filter r l_freq h_freq picks) w = (Ok tt, w1) ->
    exists o1, nth_error (heap w1) r = Some o1
               /\ n_times o1 = n_times o
               /\ sfreq (info o1) = sfreq (info o).

End FilterContracts.

(** * Theorems *)

(** ** Running composed programs *)

Section RunFacts.

Context {Env : Type}.
Variable h : Handler Env.

Lemma run_bind {A B} (p : Prog A) (f : A -> Prog B) (w : World Env) :
  run h (bind p f) w = then_run (run h p w) (fun a => run h (f a)).
Proof.
  revert w.
  induction p as [a|e|X c k IH|X q k IH]; intros w; simpl.
  - destruct (run h (f a) w) as [[res w2] t2]; reflexivity.
  - reflexivity.
  - destruct (h X c w) as [x w1].
    rewrite IH.
    destruct (run h (k x) w1) as [[[a|e] w2] t]; simpl; try reflexivity.
    destruct (run h (f a) w2) as [[res w3] t3]; reflexivity.
  - destruct (prim_step q w) as [x w1]. apply IH.
Qed.

Lemma run_try_except {A} (p : Prog A) (hd : Exn -> Prog A) (w : World Env) :
  run h (try_except p hd) w = catch_run (run h p w) (fun e => run h (hd e)).
Proof.
  revert w.
  induction p as [a|e|X c k IH|X q k IH]; intros w; simpl.
  - reflexivity.
  - destruct (run h (hd e) w) as [[res w2] t2]; reflexivity.
  - destruct (h X c w) as [x w1].
    rewrite IH.
    destruct (run h (k x) w1) as [[[a|e] w2] t]; simpl; try reflexivity.
    destruct (run h (hd e) w2) as [[res w3] t3]; reflexivity.
  - destruct (prim_step q w) as [x w1]. apply IH.
Qed.

(** A stage that ends in [return raw] after one library call. *)
Lemma run_call_then_ret {X A} (c : Call X) (a : A) (w : World Env) :
  run h (call c ;; Ret a) w =
  (match fst (h X c w) with Ok _ => Ok a | Raised e => Raised e end,
   snd (h X c w), [Called c]).
Proof.
  simpl. destruct (h X c w) as [[x|e] w1]; reflexivity.
Qed.

Lemma then_run_ret {A} (o : Outcome Env A) :
  then_run o (fun a w => (Ok a, w, [])) = o.
Proof.
  destruct o as [[[a|e] w] t]; simpl; [rewrite app_nil_r|]; reflexivity.
Qed.

(** A program never fails before delegating if it starts with a library
    call. *)
Lemma starts_with_call {X A} (c : Call X) (k : result X -> Prog A) w :
  ~ fails_before_delegating h (Ext c k) w.
Proof.
  intros [e He]. simpl in He.
  destruct (h X c w) as [x w1].
  destruct (run h (k x) w1) as [[res w2] t]. discriminate He.
Qed.

End RunFacts.

(** ** Ingestion *)

(** After [dropna] every cell of the column is there: the array holds no
    NaN, and its entries are the voltages of the rows that have one. *)
Lemma values_dropna_present (i : nat) (rs : list (list (option Q))) :
  DataPreprocess.values i (DataPreprocess.dropna i rs)
  = map Some (present_volts i rs).
Proof.
  unfold DataPreprocess.values, DataPreprocess.dropna, present_volts.
  induction rs as [|row rs IH]; simpl; [reflexivity|].
  destruct (DataPreprocess.present i row) eqn:Hp;
    unfold DataPreprocess.present in Hp;
    destruct (DataPreprocess.cell i row) as [v|] eqn:Hc; try discriminate Hp.
  - simpl. now rewrite Hc, IH.
  - exact IH.
Qed.

Lemma numbers_map_Some (a : array1) :
  DataPreprocess.numbers (map Some a) = a.
Proof.
  unfold DataPreprocess.numbers.
  induction a as [|x a IH]; simpl; [reflexivity|]. now rewrite IH.
Qed.

Lemma len_map {A B} (f : A -> B) (l : list A) : len (map f l) = len l.
Proof. unfold len. now rewrite length_map. Qed.

Lemma present_volts_repeat (i : nat) (row : list (option Q)) (v : Q) (n : nat) :
  DataPreprocess.cell i row = Some v ->
  present_volts i (repeat row n) = repeat v n.
Proof.
  intros Hc. unfold present_volts.
  induction n as [|n IH]; simpl; [reflexivity|].
  rewrite Hc. simpl. now rewrite IH.
Qed.

Lemma len_repeat_full_count (v : Q) :
  len (repeat v Lab.full_count) = DataPreprocess.expected_samples.
Proof.
  unfold len, Lab.full_count. rewrite repeat_length.
  apply Z2Nat.id. unfold DataPreprocess.expected_samples. lia.
Qed.

(** What running [remove_missing] amounts to. *)
Lemma run_remove_missing {Env : Type} (h : Handler Env) (path : string)
    (w : World Env) :
  run h (DataPreprocess.remove_missing path) w
  = match h _ (pd_read_csv path 11 "python") w with
    | (Ok df, w1) =>
        match volt_column df with
        | Some eeg =>
            if len eeg =? DataPreprocess.expected_samples
            then (Ok eeg, w1, [Called (pd_read_csv path 11 "python")])
            else (Raised (DataPreprocess.count_mismatch
                            DataPreprocess.expected_samples (len eeg)),
                  w1, [Called (pd_read_csv path 11 "python")])
        | None =>
            (Raised (mkExn KeyError [Lit "['Volt']"]), w1,
             [Called (pd_read_csv path 11 "python")])
        end
    | (Raised e, w1) => (Raised e, w1, [Called (pd_read_csv path 11 "python")])
    end.
Proof.
  unfold DataPreprocess.remove_missing, volt_column. simpl run.
  destruct (h DataFrame (pd_read_csv path 11 "python") w) as [[df|e] w1];
    simpl; [|reflexivity].
  destruct (DataPreprocess.index_of "Volt" (map strip (columns df))) as [volt|];
    [|reflexivity].
  rewrite values_dropna_present, len_map, numbers_map_Some.
  destruct (len _ =? DataPreprocess.expected_samples); reflexivity.
Qed.

(** C1: for a CSV whose labels are ASCII text and of which exactly one is
    "Volt" once trimmed: when the voltage column extracted from it has
    exactly 1,400,000 samples, [remove_missing] returns that array, whose
    length is 1,400,000; for any other length it raises the ValueError
    "Expected 1400000 samples, but got <n> samples.", which names the
    expected and the actual count. *)
Theorem remove_missing_checks_count {Env : Type} (h : Handler Env)
    (path : string) (w w1 : World Env) (df : DataFrame) (eeg : array1) :
  h _ (pd_read_csv path 11 "python") w = (Ok df, w1) ->
  ascii_labels df ->
  volt_labels df = 1%nat ->
  volt_column df = Some eeg ->
  (len eeg = 1400000 ->
     run h (DataPreprocess.remove_missing path) w
     = (Ok eeg, w1, [Called (pd_read_csv path 11 "python")]))
  /\ (len eeg <> 1400000 ->
     run h (DataPreprocess.remove_missing path) w
     = (Raised (mkExn ValueError
                  [Lit "Expected "; Int 1400000; Lit " samples, but got ";
                   Int (len eeg); Lit " samples."]),
        w1, [Called (pd_read_csv path 11 "python")])).
Proof.
  intros Hread _ _ Hcol.
  rewrite run_remove_missing, Hread, Hcol.
  unfold DataPreprocess.expected_samples, DataPreprocess.count_mismatch.
  split; intros Hlen.
  - apply Z.eqb_eq in Hlen. rewrite Hlen. reflexivity.
  - apply Z.eqb_neq in Hlen. rewrite Hlen. reflexivity.
Qed.

Lemma volt_column_full_session :
  volt_column Lab.full_session = Some (repeat 1%Q Lab.full_count).
Proof.
  unfold volt_column.
  change (columns Lab.full_session) with ["Time"; " Volt "].
  change (rows Lab.full_session)
    with (repeat [Some 0%Q; Some 1%Q] Lab.full_count).
  change (DataPreprocess.index_of "Volt" (map strip ["Time"; " Volt "]))
    with (Some 1%nat).
  cbv beta iota.
  rewrite (present_volts_repeat 1 [Some 0%Q; Some 1%Q] 1%Q Lab.full_count
             eq_refl).
  reflexivity.
Qed.

Lemma remove_missing_checks_count_witness :
  run Lab.lab (DataPreprocess.remove_missing "session.csv") Lab.archive
  = (Ok (repeat 1%Q Lab.full_count), Lab.archive,
     [Called (pd_read_csv "session.csv" 11 "python")])
  /\ run Lab.lab (DataPreprocess.remove_missing "short.csv") (Lab.bench [] false)
     = (Raised (mkExn ValueError
                  [Lit "Expected "; Int 1400000; Lit " samples, but got ";
                   Int 2; Lit " samples."]),
        Lab.bench [] false, [Called (pd_read_csv "short.csv" 11 "python")]).
Proof.
  split.
  - apply (remove_missing_checks_count Lab.lab "session.csv" Lab.archive
             Lab.archive Lab.full_session (repeat 1%Q Lab.full_count)).
    + reflexivity.
    + unfold ascii_labels.
      change (columns Lab.full_session) with ["Time"; " Volt "].
      repeat constructor.
    + unfold volt_labels.
      change (columns Lab.full_session) with ["Time"; " Volt "].
      reflexivity.
    + exact volt_column_full_session.
    + apply len_repeat_full_count.
  - apply (remove_missing_checks_count Lab.lab "short.csv" (Lab.bench [] false)
             (Lab.bench [] false) Lab.short_session [1; 3]%Q).
    + reflexivity.
    + unfold ascii_labels. simpl. repeat constructor.
    + reflexivity.
    + reflexivity.
    + unfold len. simpl. lia.
Defined.

(** The message of the count check, as text. *)
Example count_mismatch_text :
  render (exn_msg (DataPreprocess.count_mismatch DataPreprocess.expected_samples 2))
  = Some "Expected 1400000 samples, but got 2 samples.".
Proof. reflexivity. Qed.

(** ** Conditioning *)

(** Case analysis on the answer of the library to the next call. *)
Ltac ask_library h :=
  match goal with
  | |- context [h ?X ?c ?w] => destruct (h X c w) as [[?|?] ?] eqn:?
  end.

(** A stage that is one library call returns the container it was given. *)
Lemma one_call_stage_ok {Env : Type} (h : Handler Env) {X : Type}
    (c : Call X) (raw r : loc) (w w1 : World Env) (t : list Event) :
  run h (call c ;; Ret raw) w = (Ok r, w1, t) ->
  r = raw /\ t = [Called c] /\ exists x, h X c w = (Ok x, w1).
Proof.
  rewrite run_call_then_ret.
  destruct (h X c w) as [[x|e] w2]; simpl; intros Hrun; [|discriminate].
  injection Hrun as <- <- <-. repeat split. now exists x.
Qed.

(** What running the detrend stage amounts to. *)
Lemma run_apply_detrend {Env : Type} (h : Handler Env) (raw : loc)
    (w : World Env) (o : RawObj) :
  nth_error (heap w) raw = Some o ->
  run h (Filter.apply_detrend raw) w
  = match h _ (mne_filter_detrend (_data o) 1) w with
    | (Ok data, w1) =>
        match nth_error (heap w1) raw with
        | Some o1 =>
            (Ok raw, set_heap w1 (update (heap w1) raw (mkRaw data (info o1))),
             [Called (mne_filter_detrend (_data o) 1)])
        | None =>
            (Raised dangling, w1, [Called (mne_filter_detrend (_data o) 1)])
        end
    | (Raised e, w1) => (Raised e, w1, [Called (mne_filter_detrend (_data o) 1)])
    end.
Proof.
  intros Hobj. unfold Filter.apply_detrend, get_data, set_data.
  simpl. rewrite Hobj. simpl.
  ask_library h; simpl; [|reflexivity].
  destruct (nth_error (heap w0) raw) as [o1|] eqn:Ho1; simpl; [|reflexivity].
  rewrite Ho1. reflexivity.
Qed.

Lemma apply_detrend_ok {Env : Type} (h : Handler Env) (raw r : loc)
    (w w1 : World Env) (o : RawObj) (t : list Event) :
  nth_error (heap w) raw = Some o ->
  run h (Filter.apply_detrend raw) w = (Ok r, w1, t) ->
  r = raw /\ t = [Called (mne_filter_detrend (_data o) 1)].
Proof.
  intros Hobj. rewrite (run_apply_detrend h raw w o Hobj).
  ask_library h; [|discriminate].
  destruct (nth_error (heap w0) raw); [|discriminate].
  intros Hrun. injection Hrun as <- _ <-. split; reflexivity.
Qed.

(** C2: [apply_all_filters] is band-pass after notch after detrend: each
    stage works on the container returned by the one before, in the world
    it left, and a stage that raises stops the chain.  When all three
    succeed the container handed in is the one returned, and the libraries
    were asked to detrend, then to notch, then to band-pass, in that order. *)
Theorem apply_all_filters_order {Env : Type} (h : Handler Env)
    (raw : loc) (w : World Env) :
  run h (Filter.apply_all_filters raw) w
  = compose (stage h Filter.apply_bandpass_filter)
      (compose (stage h Filter.apply_notch_filter)
         (stage h Filter.apply_detrend)) raw w
  /\ forall o r' w' t,
       nth_error (heap w) raw = Some o ->
       run h (Filter.apply_all_filters raw) w = (Ok r', w', t) ->
       r' = raw
       /\ t = [Called (mne_filter_detrend (_data o) 1);
               Called (raw_notch_filter raw [50; 60]%Q "eeg");
               Called (raw_filter raw 0.5 30 "eeg")].
Proof.
  split.
  - unfold Filter.apply_all_filters, compose, stage.
    rewrite run_bind.
    destruct (run h (Filter.apply_detrend raw) w) as [[[r1|e1] w1] t1];
      cbn [then_run]; [|reflexivity].
    rewrite run_bind.
    destruct (run h (Filter.apply_notch_filter r1) w1) as [[[r2|e2] w2] t2];
      cbn [then_run]; [|reflexivity].
    rewrite run_bind.
    destruct (run h (Filter.apply_bandpass_filter r2) w2) as [[[r3|e3] w3] t3];
      cbn [then_run run]; rewrite ?app_nil_r, ?app_assoc; reflexivity.
  - intros o r' w' t Hobj.
    unfold Filter.apply_all_filters. rewrite run_bind.
    destruct (run h (Filter.apply_detrend raw) w) as [[[r1|e1] w1] t1] eqn:Hd;
      cbn [then_run]; [|discriminate].
    destruct (apply_detrend_ok h raw r1 w w1 o t1 Hobj Hd) as [-> ->].
    rewrite run_bind.
    destruct (run h (Filter.apply_notch_filter raw) w1) as [[[r2|e2] w2] t2] eqn:Hn;
      cbn [then_run]; [|discriminate].
    destruct (one_call_stage_ok h _ raw r2 w1 w2 t2 Hn) as (-> & -> & _).
    rewrite run_bind.
    destruct (run h (Filter.apply_bandpass_filter raw) w2) as [[[r3|e3] w3] t3] eqn:Hb;
      cbn [then_run run]; [|discriminate].
    destruct (one_call_stage_ok h _ raw r3 w2 w3 t3 Hb) as (-> & -> & _).
    intros Hrun. injection Hrun as <- _ <-. split; reflexivity.
Qed.

Lemma apply_all_filters_order_witness :
  0%nat = 0%nat
  /\ snd (run Lab.lab (Filter.apply_all_filters 0%nat) (Lab.bench [Lab.fast] false))
     = [Called (mne_filter_detrend (_data Lab.fast) 1);
        Called (raw_notch_filter 0%nat [50; 60]%Q "eeg");
        Called (raw_filter 0%nat 0.5 30 "eeg")].
Proof.
  destruct (apply_all_filters_order Lab.lab 0%nat (Lab.bench [Lab.fast] false))
    as [_ Hok].
  apply (Hok Lab.fast 0%nat
           (snd (fst (run Lab.lab (Filter.apply_all_filters 0%nat)
                        (Lab.bench [Lab.fast] false))))).
  - reflexivity.
  - reflexivity.
Defined.

(** C3, as stated, fails: on a container sampled at 100 Hz the notch targets
    are at or above the Nyquist limit of 50 Hz, and the notch stage still
    starts by calling the library. *)
Lemma notch_stage_does_not_validate :
  (nyquist Lab.slow <= 50)%Q
  /\ ~ fails_before_delegating Lab.lab (Filter.apply_notch_filter 0%nat)
         (Lab.bench [Lab.slow] false).
Proof.
  split.
  - unfold Qle. simpl. lia.
  - exact (starts_with_call Lab.lab _ _ _).
Qed.

(** C3, amended: neither stage checks anything itself.  For every container
    the notch stage hands the frequencies 50 and 60 Hz to the library and the
    band-pass stage the edges 0.5 and 30 Hz (low below high); this one call is
    all that happens.  The stage returns its container if the library
    returned, and otherwise lets the library's exception through, the world
    being as the library left it. *)
Theorem notch_and_bandpass_delegate {Env : Type} (h : Handler Env)
    (raw : loc) (w : World Env) :
  run h (Filter.apply_notch_filter raw) w
  = (match fst (h _ (raw_notch_filter raw [50; 60]%Q "eeg") w) with
     | Ok _ => Ok raw
     | Raised e => Raised e
     end,
     snd (h _ (raw_notch_filter raw [50; 60]%Q "eeg") w),
     [Called (raw_notch_filter raw [50; 60]%Q "eeg")])
  /\ run h (Filter.apply_bandpass_filter raw) w
     = (match fst (h _ (raw_filter raw 0.5 30 "eeg") w) with
        | Ok _ => Ok raw
        | Raised e => Raised e
        end,
        snd (h _ (raw_filter raw 0.5 30 "eeg") w),
        [Called (raw_filter raw 0.5 30 "eeg")])
  /\ (0.5 < 30)%Q.
Proof.
  repeat split.
  - apply run_call_then_ret.
  - apply run_call_then_ret.
Qed.

(** The notch of the laboratory leaves the world as it is. *)
Lemma lab_notch_keeps_shape : notch_keeps_shape Lab.lab.
Proof.
  intros r freqs picks w w1 o Hobj. simpl. unfold Lab.on_object. rewrite Hobj.
  destruct (existsb (Qle_bool (nyquist o)) freqs); [discriminate|].
  intros Hcall. injection Hcall as <-. now exists o.
Qed.

(** X18: the notch stage asks the library for exactly the two frequencies
    50 Hz and 60 Hz, and nothing else; with a library whose notch filter
    keeps length and rate, the container that the stage returns is the one
    it was given, with the same number of samples and the same sampling
    rate as before. *)
Theorem apply_notch_filter_keeps_shape {Env : Type} (h : Handler Env)
    (raw : loc) (w : World Env) (o : RawObj) :
  notch_keeps_shape h ->
  nth_error (heap w) raw = Some o ->
  snd (run h (Filter.apply_notch_filter raw) w)
  = [Called (raw_notch_filter raw [50; 60]%Q "eeg")]
  /\ forall r' w' t,
       run h (Filter.apply_notch_filter raw) w = (Ok r', w', t) ->
       r' = raw
       /\ exists o', nth_error (heap w') r' = Some o'
                     /\ n_times o' = n_times o
                     /\ sfreq (info o') = sfreq (info o).
Proof.
  intros Hlib Hobj. split.
  - unfold Filter.apply_notch_filter. now rewrite run_call_then_ret.
  - intros r' w' t Hrun.
    destruct (one_call_stage_ok h _ raw r' w w' t Hrun) as (-> & _ & [] & Hcall).
    split; [reflexivity|].
    exact (Hlib raw _ _ w w' o Hobj Hcall).
Qed.

Lemma apply_notch_filter_keeps_shape_witness :
  snd (run Lab.lab (Filter.apply_notch_filter 0%nat) (Lab.bench [Lab.fast] false))
  = [Called (raw_notch_filter 0%nat [50; 60]%Q "eeg")]
  /\ exists o', nth_error
                  (heap (snd (fst (run Lab.lab (Filter.apply_notch_filter 0%nat)
                                     (Lab.bench [Lab.fast] false))))) 0%nat
                = Some o'
                /\ n_times o' = 3%nat
                /\ sfreq (info o') = 5000%Q.
Proof.
  destruct (apply_notch_filter_keeps_shape Lab.lab 0%nat
              (Lab.bench [Lab.fast] false) Lab.fast lab_notch_keeps_shape eq_refl)
    as [Hcalls Hok].
  split; [exact Hcalls|].
  exact (proj2 (Hok 0%nat _ _ eq_refl)).
Defined.

(** C8, as stated, fails: asked for the rate -1 Hz, the resample operation
    does not reject the request; it starts by calling the library. *)
Lemma downsampling_does_not_validate :
  (-1 <= 0)%Q
  /\ ~ fails_before_delegating Lab.lab (Filter.apply_downsampling 0%nat (-1))
         (Lab.bench [Lab.fast] false).
Proof.
  split.
  - unfold Qle. simpl. lia.
  - exact (starts_with_call Lab.lab _ _ _).
Qed.

(** What running the resample operation amounts to. *)
Lemma run_apply_downsampling {Env : Type} (h : Handler Env)
    (raw : loc) (new_sfreq : Q) (w : World Env) :
  run h (Filter.apply_downsampling raw new_sfreq) w
  = match h _ (raw_resample raw new_sfreq "auto") w with
    | (Ok _, w1) =>
        (Ok raw,
         mkWorld (heap w1)
           (stdout w1 ++ [[Lit "Data downsampled to "; Num new_sfreq; Lit " Hz."]])
           (env w1),
         [Called (raw_resample raw new_sfreq "auto")])
    | (Raised e, w1) =>
        (Raised e, w1, [Called (raw_resample raw new_sfreq "auto")])
    end.
Proof.
  unfold Filter.apply_downsampling. simpl.
  destruct (h unit (raw_resample raw new_sfreq "auto") w) as [[x|e] w1];
    reflexivity.
Qed.

(** C8, amended: the resample operation does not look at the target rate.
    For every rate, zero and negative ones included, its first and only
    library call asks to resample the container to that rate; if the library
    returns, the operation reports the rate on standard output and returns
    the container, and if the library raises, that exception leaves the
    operation. *)
Theorem apply_downsampling_delegates {Env : Type} (h : Handler Env)
    (raw : loc) (new_sfreq : Q) (w : World Env) :
  snd (run h (Filter.apply_downsampling raw new_sfreq) w)
  = [Called (raw_resample raw new_sfreq "auto")]
  /\ fst (run h (Filter.apply_downsampling raw new_sfreq) w)
     = match h _ (raw_resample raw new_sfreq "auto") w with
       | (Ok _, w1) =>
           (Ok raw,
            mkWorld (heap w1)
              (stdout w1
                 ++ [[Lit "Data downsampled to "; Num new_sfreq; Lit " Hz."]])
              (env w1))
       | (Raised e, w1) => (Raised e, w1)
       end.
Proof.
  rewrite run_apply_downsampling.
  destruct (h unit (raw_resample raw new_sfreq "auto") w) as [[x|e] w1];
    split; reflexivity.
Qed.


(** ** Container conversion *)

(** The container that [convert_to_fif] builds from the samples. *)
Lemma run_convert_to_fif {Env : Type} (h : Handler Env) (eeg : array1)
    (w : World Env) :
  run h (DataPreprocess.convert_to_fif eeg) w
  = let raw := List.length (heap w) in
    let built := mkRaw [eeg] (mkInfo ["EEG"] 5000%Q ["eeg"]) in
    match h _ (raw_save raw "eeg_data_raw.fif" true)
            (set_heap w (heap w ++ [built])) with
    | (Ok _, w1) =>
        (Ok (inl (raw, [Lit "CSV converted to FIF and saved at ";
                        Lit "eeg_data_raw.fif"])),
         w1, [Called (raw_save raw "eeg_data_raw.fif" true)])
    | (Raised e, w1) =>
        (Ok (inr (Lit "Error occurred: " :: exn_msg e)),
         w1, [Called (raw_save raw "eeg_data_raw.fif" true)])
    end.
Proof.
  unfold DataPreprocess.convert_to_fif, DataPreprocess.RawArray,
    DataPreprocess.reshape_one_row, DataPreprocess.create_info,
    DataPreprocess.sfreq_at_construction.
  simpl. ask_library h; reflexivity.
Qed.

(** C4, as stated, fails: with a full disk the write of the artifact raises
    an OSError, and the conversion returns normally, with a string. *)
Lemma convert_to_fif_returns_on_full_disk :
  snd (run Lab.lab (DataPreprocess.convert_to_fif [1; 2; 3]%Q) (Lab.bench [] true))
  = [Called (raw_save 0%nat "eeg_data_raw.fif" true)]
  /\ fst (Lab.lab _ (raw_save 0%nat "eeg_data_raw.fif" true)
            (set_heap (Lab.bench [] true) [Lab.recording 5000 [1; 2; 3]%Q]))
     = Raised Lab.no_space
  /\ fst (fst (run Lab.lab (DataPreprocess.convert_to_fif [1; 2; 3]%Q)
                 (Lab.bench [] true)))
     = Ok (inr [Lit "Error occurred: "; Lit "No space left on device"])
  /\ ~ propagates Lab.lab (DataPreprocess.convert_to_fif [1; 2; 3]%Q)
         (Lab.bench [] true) Lab.no_space.
Proof.
  repeat split; try reflexivity.
  unfold propagates. simpl. discriminate.
Qed.

(** C4, amended: when the write of the intermediate artifact raises, the
    conversion catches the exception itself and returns the text
    "Error occurred: " followed by the message of the exception, in place of
    the pair of container and message; nothing propagates to the caller. *)
Theorem convert_to_fif_catches_save_failure {Env : Type} (h : Handler Env)
    (eeg : array1) (w w1 : World Env) (e : Exn) :
  h _ (raw_save (List.length (heap w)) "eeg_data_raw.fif" true)
    (set_heap w (heap w ++ [mkRaw [eeg] (mkInfo ["EEG"] 5000%Q ["eeg"])]))
  = (Raised e, w1) ->
  run h (DataPreprocess.convert_to_fif eeg) w
  = (Ok (inr (Lit "Error occurred: " :: exn_msg e)), w1,
     [Called (raw_save (List.length (heap w)) "eeg_data_raw.fif" true)]).
Proof.
  intros Hsave. rewrite run_convert_to_fif. cbv zeta. now rewrite Hsave.
Qed.

Lemma convert_to_fif_catches_save_failure_witness :
  run Lab.lab (DataPreprocess.convert_to_fif [1; 2; 3]%Q) (Lab.bench [] true)
  = (Ok (inr [Lit "Error occurred: "; Lit "No space left on device"]),
     set_heap (Lab.bench [] true) [Lab.recording 5000 [1; 2; 3]%Q],
     [Called (raw_save 0%nat "eeg_data_raw.fif" true)]).
Proof.
  apply (convert_to_fif_catches_save_failure Lab.lab [1; 2; 3]%Q
           (Lab.bench [] true)
           (set_heap (Lab.bench [] true) [Lab.recording 5000 [1; 2; 3]%Q])
           Lab.no_space).
  reflexivity.
Defined.

(** ** Resampling a converted container *)

Lemma lab_save_keeps_store : save_keeps_store Lab.lab.
Proof.
  intros r fname overwrite w w1. simpl.
  destruct (Lab.disk_full (env w)); [discriminate|].
  intros Hcall. now injection Hcall as <-.
Qed.

Lemma nth_error_update {A} (l : list A) (i : nat) (x y : A) :
  nth_error l i = Some y -> nth_error (update l i x) i = Some x.
Proof.
  revert i. induction l as [|z l IH]; intros [|i]; simpl; try discriminate.
  - reflexivity.
  - apply IH.
Qed.

Lemma lab_resample_sets_rate : resample_sets_rate Lab.lab.
Proof.
  intros r new_sfreq npad w w1 o Hobj. simpl. unfold Lab.on_object.
  rewrite Hobj. intros Hcall. injection Hcall as <-.
  eexists. split.
  - simpl. eapply nth_error_update. exact Hobj.
  - reflexivity.
Qed.

(** C10: the default target rate of [apply_downsampling] is the rate that
    [convert_to_fif] gives to the container it builds, 5000 Hz; so, with a
    library whose save leaves the objects alone and whose resample sets the
    requested rate, resampling a freshly converted container with the
    default arguments leaves its sampling rate as it was. *)
Theorem default_resample_keeps_rate {Env : Type} (h : Handler Env)
    (eeg : array1) (w w1 w2 : World Env) (raw r' : loc) (msg : Msg)
    (t1 t2 : list Event) :
  save_keeps_store h ->
  resample_sets_rate h ->
  run h (DataPreprocess.convert_to_fif eeg) w = (Ok (inl (raw, msg)), w1, t1) ->
  run h (Filter.apply_downsampling raw Filter.default_new_sfreq) w1
  = (Ok r', w2, t2) ->
  Filter.default_new_sfreq = DataPreprocess.sfreq_at_construction
  /\ r' = raw
  /\ exists o1 o2,
       nth_error (heap w1) raw = Some o1
       /\ nth_error (heap w2) raw = Some o2
       /\ sfreq (info o1) = 5000%Q
       /\ sfreq (info o2) = sfreq (info o1).
Proof.
  intros Hsave Hres Hconv Hdown.
  split; [reflexivity|].
  rewrite run_convert_to_fif in Hconv. cbv zeta in Hconv.
  destruct (h unit (raw_save (List.length (heap w)) "eeg_data_raw.fif" true)
              (set_heap w (heap w ++ [mkRaw [eeg] (mkInfo ["EEG"] 5000%Q ["eeg"])])))
    as [[[]|e] w0] eqn:Hcall; [|discriminate Hconv].
  injection Hconv as <- _ <- _.
  apply Hsave in Hcall. simpl in Hcall.
  assert (Hobj : nth_error (heap w0) (List.length (heap w))
                 = Some (mkRaw [eeg] (mkInfo ["EEG"] 5000%Q ["eeg"]))).
  { rewrite Hcall, nth_error_app2, Nat.sub_diag by lia. reflexivity. }
  rewrite run_apply_downsampling in Hdown.
  destruct (h unit (raw_resample (List.length (heap w)) Filter.default_new_sfreq "auto") w0)
    as [[[]|e] w3] eqn:Hcall2; [|discriminate Hdown].
  injection Hdown as <- <- _.
  split; [reflexivity|].
  destruct (Hres _ _ _ _ _ _ Hobj Hcall2) as (o2 & Ho2 & Hrate).
  exists (mkRaw [eeg] (mkInfo ["EEG"] 5000%Q ["eeg"])), o2.
  repeat split; [exact Hobj | exact Ho2 | exact Hrate].
Qed.

Lemma default_resample_keeps_rate_witness :
  Filter.default_new_sfreq = DataPreprocess.sfreq_at_construction
  /\ 0%nat = 0%nat
  /\ exists o1 o2,
       nth_error
         (heap (snd (fst (run Lab.lab (DataPreprocess.convert_to_fif [1; 2; 3]%Q)
                            (Lab.bench [] false))))) 0%nat = Some o1
       /\ nth_error
            (heap (snd (fst (run Lab.lab
                               (Filter.apply_downsampling 0%nat
                                  Filter.default_new_sfreq)
                               (snd (fst (run Lab.lab
                                            (DataPreprocess.convert_to_fif
                                               [1; 2; 3]%Q)
                                            (Lab.bench [] false)))))))) 0%nat
          = Some o2
       /\ sfreq (info o1) = 5000%Q
       /\ sfreq (info o2) = sfreq (info o1).
Proof.
  apply (default_resample_keeps_rate Lab.lab [1; 2; 3]%Q (Lab.bench [] false)
           _ _ 0%nat 0%nat
           [Lit "CSV converted to FIF and saved at "; Lit "eeg_data_raw.fif"]
           [Called (raw_save 0%nat "eeg_data_raw.fif" true)]
           [Called (raw_resample 0%nat Filter.default_new_sfreq "auto")]
           lab_save_keeps_store lab_resample_sets_rate).
  - reflexivity.
  - reflexivity.
Defined.

(** ** Time-frequency analysis *)

Lemma run_print {Env : Type} (h : Handler Env) (m : Msg) (w : World Env) :
  run h (prim (print m)) w
  = (Ok tt, mkWorld (heap w) (stdout w ++ [m]) (env w), []).
Proof. reflexivity. Qed.

(** C5: whatever the libraries do under [try:], [compute_tfr_multitaper]
    returns normally.  If a statement of the body raises, the exception is
    caught there: the only further effect is a line on standard output that
    starts with "An error occurred while performing TFR analysis: " and
    carries the message of the exception. *)
Theorem compute_tfr_multitaper_never_raises {Env : Type} (h : Handler Env)
    (raw : loc) (w : World Env) :
  (exists w' t, run h (FFT.compute_tfr_multitaper raw) w = (Ok tt, w', t))
  /\ forall e w1 t,
       run h (FFT.tfr_body raw) w = (Raised e, w1, t) ->
       run h (FFT.compute_tfr_multitaper raw) w
       = (Ok tt,
          mkWorld (heap w1)
            (stdout w1
               ++ [Lit "An error occurred while performing TFR analysis: "
                     :: exn_msg e])
            (env w1),
          t).
Proof.
  unfold FFT.compute_tfr_multitaper. rewrite run_try_except.
  destruct (run h (FFT.tfr_body raw) w) as [[[[]|e] w1] t] eqn:Hbody;
    cbn [catch_run]; split.
  - now exists w1, t.
  - intros e w2 t2 Hraised. discriminate Hraised.
  - rewrite run_print, app_nil_r. eexists; eexists; reflexivity.
  - intros e' w2 t2 Hraised. injection Hraised as <- <- <-.
    rewrite run_print, app_nil_r. reflexivity.
Qed.

Lemma compute_tfr_multitaper_never_raises_witness :
  run Lab.lab (FFT.compute_tfr_multitaper 0%nat) (Lab.bench [Lab.fast] false)
  = (Ok tt,
     mkWorld [Lab.fast]
       [[Lit "Performing Time-Frequency Analysis using Multitaper method..."];
        [Lit "An error occurred while performing TFR analysis: ";
         Lit "No epochs can be made from the data"]]
       (env (Lab.bench [Lab.fast] false)),
     [Called (mne_make_fixed_length_epochs 0%nat 3.0 1.0)]).
Proof.
  destruct (compute_tfr_multitaper_never_raises Lab.lab 0%nat
              (Lab.bench [Lab.fast] false)) as [_ Hcaught].
  apply (Hcaught Lab.too_short
           (mkWorld [Lab.fast]
              [[Lit "Performing Time-Frequency Analysis using Multitaper method..."]]
              (env (Lab.bench [Lab.fast] false)))).
  reflexivity.
Defined.

(** ** Cropped plots *)

(** The two bounds that the code does enforce. *)
Lemma py_max_lower (s : Q) : (0 <= py_max 0 s)%Q.
Proof.
  unfold py_max. destruct (Qle_bool s 0) eqn:Hs.
  - apply Qle_refl.
  - apply Qlt_le_weak, Qnot_le_lt. intros Hle.
    apply Qle_bool_iff in Hle. congruence.
Qed.

Lemma py_min_upper (t_last e : Q) : (py_min t_last e <= t_last)%Q.
Proof.
  unfold py_min. destruct (Qle_bool t_last e) eqn:He.
  - apply Qle_refl.
  - apply Qlt_le_weak, Qnot_le_lt. intros Hle.
    apply Qle_bool_iff in Hle. congruence.
Qed.

(** C6, the code on a window that starts after the end of the recording: on
    a container whose times run from 0 s to 10 s, asked for the window from
    20 s to 30 s, [plot_cropped_event_segment] leaves the start at 20 s,
    lowers the end to 10 s, and asks the library to crop the copy from 20 s
    to 10 s; the library rejects that window and the operation raises. *)
Theorem plot_cropped_start_past_end :
  last (times Lab.ten_seconds) 0%Q == 10
  /\ snd (run Lab.lab (Plot.plot_cropped_event_segment 0%nat "Sound On" 20 30)
            (Lab.bench [Lab.ten_seconds] false))
     = [Called (np_std (_data Lab.ten_seconds)); Called (raw_crop 1%nat 20 10)]
  /\ fst (fst (run Lab.lab
                 (Plot.plot_cropped_event_segment 0%nat "Sound On" 20 30)
                 (Lab.bench [Lab.ten_seconds] false)))
     = Raised Lab.bad_crop.
Proof.
  repeat split; vm_compute; reflexivity.
Qed.

(** ** Channel averaging *)

(** *** Rounding *)

Lemma round_half_even_error (x : Q) :
  (Qabs (inject_Z (round_half_even x) - x) <= 1 # 2)%Q.
Proof.
  unfold round_half_even.
  pose proof (Qfloor_le x) as Hlo.
  pose proof (Qlt_floor x) as Hhi.
  rewrite inject_Z_plus in Hhi. change (inject_Z 1) with 1%Q in Hhi.
  set (f := Qfloor x) in *.
  assert (Hup : (inject_Z (f + 1) == inject_Z f + 1)%Q)
    by (rewrite inject_Z_plus; reflexivity).
  destruct (x - inject_Z f ?= 1 # 2)%Q eqn:Hc.
  - apply Qeq_alt in Hc. destruct (Z.even f); rewrite ?Hup;
      apply Qabs_case; intros _; lra.
  - apply Qlt_alt in Hc. apply Qabs_case; intros _; lra.
  - apply Qgt_alt in Hc. rewrite Hup. apply Qabs_case; intros _; lra.
Qed.

Lemma pow2_pos (e : Z) : (0 < pow2 e)%Q.
Proof.
  unfold pow2. apply Qpower_0_lt. reflexivity.
Qed.

Lemma round53_rounds_within : rounds_within unit_roundoff round53.
Proof.
  intros q. unfold round53.
  destruct (binade q) as [e|] eqn:Hb.
  - unfold binade in Hb. apply find_some in Hb. destruct Hb as [_ Hin].
    unfold in_binade in Hin. apply andb_prop in Hin. destruct Hin as [Hin _].
    apply Qle_bool_iff in Hin.
    pose proof (pow2_pos e) as Hp.
    pose proof (round_half_even_error (q / pow2 e)) as Hr.
    set (p := pow2 e) in *. set (R := inject_Z (round_half_even (q / p))) in *.
    rewrite Qred_correct.
    assert (Hq : (2 ^ 52 * p <= Qabs q)%Q).
    { apply (Qmult_le_r _ _ (/ p)); [now apply Qinv_lt_0_compat|].
      rewrite <- Qmult_assoc, Qmult_inv_r by lra.
      rewrite Qmult_1_r. exact Hin. }
    assert (He : (R * p - q == (R - q / p) * p)%Q) by (field; lra).
    rewrite He, Qabs_Qmult, (Qabs_pos p) by lra.
    unfold unit_roundoff.
    assert (Hh : (Qabs (R - q / p) * p <= (1 # 2) * p)%Q)
      by (apply Qmult_le_compat_r; lra).
    change (2 ^ 52)%Q with (4503599627370496 # 1)%Q in Hq. lra.
  - rewrite Qred_correct.
    setoid_replace (q - q)%Q with 0%Q by ring. simpl Qabs.
    apply Qmult_le_0_compat; [discriminate | apply Qabs_nonneg].
Qed.

Lemma rounds_within_nonneg (u : Q) (fl : Q -> Q) :
  rounds_within u fl -> (0 <= u)%Q.
Proof.
  intros Hfl. pose proof (Hfl 1%Q) as H1.
  pose proof (Qabs_nonneg (fl 1 - 1)%Q) as H0.
  change (Qabs 1%Q) with 1%Q in H1. lra.
Qed.

Lemma rounding_growth_nonneg (u : Q) (k : nat) :
  (0 <= u)%Q -> (0 <= rounding_growth u k)%Q.
Proof.
  intros Hu. induction k as [|k IH]; simpl; [lra|nra].
Qed.

(** One rounded addition: the error grows by at most one step. *)
Lemma fl_add_error (u : Q) (fl : Q -> Q) (s0 S0 A0 x : Q) (k : nat) :
  rounds_within u fl ->
  (Qabs (s0 - S0) <= rounding_growth u k * A0)%Q ->
  (Qabs S0 <= A0)%Q ->
  (Qabs (fl (s0 + x) - (S0 + x)) <= rounding_growth u (S k) * (A0 + Qabs x))%Q
  /\ (Qabs (S0 + x) <= A0 + Qabs x)%Q.
Proof.
  intros Hfl Herr Hsum.
  pose proof (rounds_within_nonneg u fl Hfl) as Hu.
  pose proof (rounding_growth_nonneg u k Hu) as Hc.
  pose proof (Hfl (s0 + x)%Q) as Hround.
  pose proof (Qabs_nonneg x) as Hx.
  pose proof (Qabs_nonneg S0) as HS0.
  pose proof (Qabs_nonneg (s0 - S0)%Q) as HE0.
  pose proof (Qabs_triangle S0 x) as Ht0.
  assert (Hy : (Qabs (s0 + x) <= Qabs (s0 - S0) + A0 + Qabs x)%Q).
  { setoid_replace (s0 + x)%Q with ((s0 - S0) + (S0 + x))%Q by ring.
    pose proof (Qabs_triangle (s0 - S0)%Q (S0 + x)%Q). lra. }
  assert (Hsplit : (Qabs (fl (s0 + x) - (S0 + x))
                    <= Qabs (fl (s0 + x) - (s0 + x)) + Qabs (s0 - S0))%Q).
  { setoid_replace (fl (s0 + x) - (S0 + x))%Q
      with ((fl (s0 + x) - (s0 + x)) + (s0 - S0))%Q by ring.
    apply Qabs_triangle. }
  split; [|lra].
  simpl rounding_growth.
  set (c := rounding_growth u k) in *.
  set (E0 := Qabs (s0 - S0)%Q) in *.
  set (Y := Qabs (s0 + x)%Q) in *.
  set (D := Qabs (fl (s0 + x) - (s0 + x))%Q) in *.
  set (X := Qabs x) in *.
  set (G := Qabs (fl (s0 + x) - (S0 + x))%Q) in *.
  clearbody c E0 Y D X G.
  assert (H1 : (u * Y <= u * (E0 + A0 + X))%Q) by nra.
  assert (H2 : (0 <= c * X)%Q) by nra.
  assert (H3 : (u * E0 <= u * (c * (A0 + X)))%Q) by nra.
  nra.
Qed.

Lemma add_rows_length (fl : Q -> Q) (a b : array1) :
  List.length a = List.length b ->
  List.length (Filter.add_rows fl a b) = List.length a.
Proof.
  revert b. induction a as [|x a IH]; intros [|y b] Hlen; simpl in *;
    try discriminate; [reflexivity|].
  f_equal. apply IH. now injection Hlen.
Qed.

Lemma nth_add_rows (fl : Q -> Q) (a b : array1) (t : nat) :
  List.length a = List.length b ->
  (t < List.length a)%nat ->
  nth t (Filter.add_rows fl a b) 0%Q = fl (nth t a 0 + nth t b 0)%Q.
Proof.
  revert b t. induction a as [|x a IH]; intros [|y b] t Hlen Ht; simpl in *;
    try discriminate; try lia.
  destruct t as [|t]; [reflexivity|]. apply IH; [now injection Hlen | lia].
Qed.

(** Adding up the rows one after the other gives, at every time step, the
    channel values added up one after the other. *)
Lemma fold_add_rows (fl : Q -> Q) (L : nat) (rest : array2) :
  forall row : array1,
    List.length row = L ->
    Forall (fun channel => List.length channel = L) rest ->
    List.length (fold_left (Filter.add_rows fl) rest row) = L
    /\ forall t, (t < L)%nat ->
         nth t (fold_left (Filter.add_rows fl) rest row) 0%Q
         = fold_left (fun acc channel => fl (acc + nth t channel 0)%Q) rest
             (nth t row 0%Q).
Proof.
  induction rest as [|c rest IH]; intros row Hrow Hrest; simpl.
  - split; [exact Hrow | reflexivity].
  - inversion Hrest as [|c' rest' Hc Hrest']; subst.
    destruct (IH (Filter.add_rows fl row c)) as [Hlen Hnth].
    + rewrite add_rows_length; congruence.
    + exact Hrest'.
    + split; [exact Hlen|]. intros t Ht.
      rewrite (Hnth t Ht), nth_add_rows by (congruence || lia). reflexivity.
Qed.

(** The channel values added up with rounding, against their exact sum. *)
Lemma fl_sum_error (u : Q) (fl : Q -> Q) (t : nat) (rest : array2) :
  rounds_within u fl ->
  forall (s0 S0 A0 : Q) (k : nat),
    (Qabs (s0 - S0) <= rounding_growth u k * A0)%Q ->
    (Qabs S0 <= A0)%Q ->
    (Qabs (fold_left (fun acc channel => fl (acc + nth t channel 0)%Q) rest s0
           - (S0 + Qsum (map (fun channel => nth t channel 0%Q) rest)))
     <= rounding_growth u (k + List.length rest)
        * (A0 + Qsum (map (fun channel => Qabs (nth t channel 0%Q)) rest)))%Q
    /\ (Qabs (S0 + Qsum (map (fun channel => nth t channel 0%Q) rest))
        <= A0 + Qsum (map (fun channel => Qabs (nth t channel 0%Q)) rest))%Q.
Proof.
  intros Hfl. induction rest as [|c rest IH]; intros s0 S0 A0 k Herr Hsum.
  - cbn [fold_left map Qsum fold_right List.length].
    rewrite Nat.add_0_r, !Qplus_0_r. split; assumption.
  - destruct (fl_add_error u fl s0 S0 A0 (nth t c 0%Q) k Hfl Herr Hsum)
      as [Herr1 Hsum1].
    destruct (IH _ _ _ _ Herr1 Hsum1) as [Herr2 Hsum2].
    cbn [fold_left map Qsum fold_right List.length].
    rewrite Nat.add_succ_r.
    setoid_replace (S0 + (nth t c 0 + Qsum (map (fun channel => nth t channel 0) rest)))%Q
      with (S0 + nth t c 0 + Qsum (map (fun channel => nth t channel 0%Q) rest))%Q
      by ring.
    setoid_replace (A0 + (Qabs (nth t c 0)
                          + Qsum (map (fun channel => Qabs (nth t channel 0)) rest)))%Q
      with (A0 + Qabs (nth t c 0)
            + Qsum (map (fun channel => Qabs (nth t channel 0%Q)) rest))%Q
      by ring.
    split; assumption.
Qed.

(** The rounded division by the number of channels. *)
Lemma fl_mean_error (u : Q) (fl : Q -> Q) (s S0 A0 n : Q) (k : nat) :
  rounds_within u fl ->
  (0 < n)%Q ->
  (Qabs (s - S0) <= rounding_growth u k * A0)%Q ->
  (Qabs S0 <= A0)%Q ->
  (Qabs (fl (s / n) - S0 / n) <= rounding_growth u (S k) * (A0 / n))%Q.
Proof.
  intros Hfl Hn Herr Hsum.
  pose proof (rounds_within_nonneg u fl Hfl) as Hu.
  pose proof (rounding_growth_nonneg u k Hu) as Hc.
  pose proof (Hfl (s / n)%Q) as Hround.
  pose proof (Qabs_nonneg S0) as HS0.
  pose proof (Qabs_nonneg (s - S0)%Q) as HE0.
  assert (Hi : (0 < / n)%Q) by now apply Qinv_lt_0_compat.
  unfold Qdiv in *.
  assert (Hs : (Qabs (s * / n) <= (Qabs (s - S0) + A0) * / n)%Q).
  { rewrite Qabs_Qmult, (Qabs_pos (/ n)) by lra.
    apply Qmult_le_compat_r; [|lra].
    setoid_replace s with ((s - S0) + S0)%Q at 1 by ring.
    pose proof (Qabs_triangle (s - S0)%Q S0). lra. }
  assert (Hd : (Qabs (s * / n - S0 * / n) <= Qabs (s - S0) * / n)%Q).
  { setoid_replace (s * / n - S0 * / n)%Q with ((s - S0) * / n)%Q by ring.
    rewrite Qabs_Qmult, (Qabs_pos (/ n)) by lra. lra. }
  assert (Hsplit : (Qabs (fl (s * / n) - S0 * / n)
                    <= Qabs (fl (s * / n) - s * / n)
                       + Qabs (s * / n - S0 * / n))%Q).
  { setoid_replace (fl (s * / n) - S0 * / n)%Q
      with ((fl (s * / n) - s * / n) + (s * / n - S0 * / n))%Q by ring.
    apply Qabs_triangle. }
  simpl rounding_growth.
  set (c := rounding_growth u k) in *.
  set (E0 := Qabs (s - S0)%Q) in *.
  set (Y := Qabs (s * / n)%Q) in *.
  set (D := Qabs (fl (s * / n) - s * / n)%Q) in *.
  set (F := Qabs (s * / n - S0 * / n)%Q) in *.
  set (G := Qabs (fl (s * / n) - S0 * / n)%Q) in *.
  set (i := (/ n)%Q) in *.
  clearbody c E0 Y D F G i.
  assert (H1 : (u * Y <= u * ((E0 + A0) * i))%Q) by nra.
  assert (H2 : (E0 * i <= c * A0 * i)%Q) by nra.
  assert (H3 : (u * (E0 * i) <= u * (c * A0 * i))%Q) by nra.
  nra.
Qed.

Lemma Qdiv_one (s : Q) : (s / inject_Z 1)%Q = s.
Proof.
  destruct s as [n d]. unfold Qdiv, Qmult, Qinv, inject_Z. simpl.
  now rewrite Z.mul_1_r, Pos.mul_1_r.
Qed.

Lemma run_average_signal {Env : Type} (h : Handler Env) (fl : Q -> Q)
    (raw : loc) (w : World Env) (o : RawObj) :
  nth_error (heap w) raw = Some o ->
  run h (Filter.average_signal fl raw) w
  = (Ok (Filter.np_mean_axis0 fl (_data o)),
     mkWorld (heap w)
       (stdout w
          ++ [[Lit "Averaged signal computed. Length: ";
               Int (len (Filter.np_mean_axis0 fl (_data o))); Lit " samples."]])
       (env w),
     []).
Proof.
  intros Hobj. unfold Filter.average_signal, get_data.
  cbn [bind prim run prim_step reraise]. rewrite Hobj. reflexivity.
Qed.

(** C9, as stated, fails in floating-point arithmetic: for three channels
    that each hold the binary64 number nearest to 0.1, whose arithmetic mean
    is that number, [average_signal] returns the next binary64 number above
    it, because the sum and the quotient are rounded. *)
Lemma average_signal_rounds :
  mean_at (_data Lab.three_tenths) 0 == Lab.tenth
  /\ fst (fst (run Lab.lab (Filter.average_signal round53 0%nat)
                 (Lab.bench [Lab.three_tenths] false)))
     = Ok [7205759403792795 # 72057594037927936]
  /\ ~ (7205759403792795 # 72057594037927936
        == mean_at (_data Lab.three_tenths) 0).
Proof.
  repeat split.
  intros Heq. vm_compute in Heq. discriminate Heq.
Qed.

(** C9, amended: for a container of N channels of equal length L,
    [average_signal] returns a sequence of length L whose value at every
    time step is the arithmetic mean of the N channel values at that step up
    to the rounding of the N floating-point operations that compute it: with
    operations of relative error at most u, it differs from the mean by at
    most ((1 + u)^N - 1) times the mean of the absolute values.  For a
    container of one channel of floating-point numbers it returns the
    samples of that channel unchanged. *)
Theorem average_signal_is_rounded_mean {Env : Type} (h : Handler Env)
    (fl : Q -> Q) (u : Q) (raw : loc) (w : World Env) (o : RawObj) (L : nat) :
  rounds_within u fl ->
  nth_error (heap w) raw = Some o ->
  _data o <> [] ->
  Forall (fun channel => List.length channel = L) (_data o) ->
  exists avg w',
    run h (Filter.average_signal fl raw) w = (Ok avg, w', [])
    /\ List.length avg = L
    /\ (forall t, (t < L)%nat ->
          (Qabs (nth t avg 0 - mean_at (_data o) t)
           <= rounding_growth u (List.length (_data o))
              * (abs_sum_at (_data o) t / inject_Z (len (_data o))))%Q)
    /\ (forall channel,
          _data o = [channel] ->
          Forall (fun s => fl s = s) channel ->
          avg = channel).
Proof.
  intros Hfl Hobj Hne Hall.
  eexists; eexists. split; [apply (run_average_signal h fl raw w o Hobj)|].
  destruct (_data o) as [|row rest] eqn:Hdata; [congruence|].
  inversion Hall as [|c' rest' Hrow Hrest]; subst c' rest'.
  destruct (fold_add_rows fl L rest row Hrow Hrest) as [Hlen Hnth].
  unfold Filter.np_mean_axis0.
  set (n := inject_Z (len (row :: rest))).
  assert (Hpos : (0 < n)%Q).
  { subst n. unfold len. cbn [List.length]. rewrite Nat2Z.inj_succ.
    unfold Qlt, inject_Z. simpl. lia. }
  repeat split.
  - now rewrite length_map.
  - intros t Ht. unfold mean_at, abs_sum_at. fold n.
    rewrite (nth_indep _ 0%Q ((fun s => fl (s / n))%Q 0%Q))
      by (rewrite length_map; lia).
    rewrite (map_nth (fun s => fl (s / n))%Q), (Hnth t Ht).
    cbn [map Qsum fold_right List.length].
    destruct (fl_sum_error u fl t rest Hfl (nth t row 0%Q) (nth t row 0%Q)
                (Qabs (nth t row 0%Q)) 0%nat) as [Herr Hsum].
    + setoid_replace (nth t row 0 - nth t row 0)%Q with 0%Q by ring.
      cbn [rounding_growth Qabs Z.abs Qnum Qden]. lra.
    + apply Qle_refl.
    + apply (fl_mean_error u fl _ _ _ n _ Hfl Hpos Herr Hsum).
  - intros channel Hone Hfloat. injection Hone as -> ->. subst n.
    cbn [fold_left]. change (len [channel]) with 1.
    rewrite (map_ext_in _ (fun s => s)); [apply map_id|].
    intros s Hs. rewrite Qdiv_one.
    rewrite Forall_forall in Hfloat. now apply Hfloat.
Qed.

Lemma average_signal_is_rounded_mean_witness :
  exists avg w',
    run Lab.lab (Filter.average_signal round53 0%nat)
      (Lab.bench [Lab.three_tenths] false) = (Ok avg, w', [])
    /\ List.length avg = 1%nat
    /\ (forall t, (t < 1)%nat ->
          (Qabs (nth t avg 0 - mean_at (_data Lab.three_tenths) t)
           <= rounding_growth unit_roundoff
                (List.length (_data Lab.three_tenths))
              * (abs_sum_at (_data Lab.three_tenths) t
                 / inject_Z (len (_data Lab.three_tenths))))%Q)
    /\ (forall channel,
          _data Lab.three_tenths = [channel] ->
          Forall (fun s => round53 s = s) channel ->
          avg = channel).
Proof.
  apply (average_signal_is_rounded_mean Lab.lab round53 unit_roundoff 0%nat
           (Lab.bench [Lab.three_tenths] false) Lab.three_tenths 1%nat).
  - exact round53_rounds_within.
  - reflexivity.
  - simpl. discriminate.
  - simpl. repeat constructor.
Defined.

(** A container of one channel comes back as it is, and without rounding the
    mean of two channels is exact. *)
Example average_signal_mono :
  fst (fst (run Lab.lab (Filter.average_signal round53 0%nat)
              (Lab.bench [Lab.fast] false)))
  = Ok [1; 2; 3]%Q.
Proof. vm_compute. reflexivity. Qed.

Example average_signal_stereo :
  fst (fst (run Lab.lab (Filter.average_signal round53 0%nat)
              (Lab.bench [Lab.stereo] false)))
  = Ok [2; 4; 3 # 2]%Q.
Proof. vm_compute. reflexivity. Qed.

(** The same three additions and the division in the binary64 arithmetic of
    the machine: the mean of three times 0.1 is the number that [round53]
    gives. *)
Example binary64_mean_of_three_tenths :
  Prim2SF ((0x1.999999999999ap-4 + 0x1.999999999999ap-4 + 0x1.999999999999ap-4)
           / 3)%float
  = S754_finite false 7205759403792795 (-56)
  /\ Prim2SF 0x1.999999999999ap-4%float
     = S754_finite false 7205759403792794 (-56).
Proof. split; vm_compute; reflexivity. Qed.

(** * Further properties *)

(** ** Ingestion: errors and the length of what is returned *)

(** X1: A data frame with ASCII labels, none of which is "Volt" once
    trimmed, makes [remove_missing] raise the KeyError of the missing
    label, ['Volt'], however many rows it has. *)
Theorem remove_missing_without_volt_column {Env : Type} (h : Handler Env)
    (path : string) (w w1 : World Env) (df : DataFrame) :
  h _ (pd_read_csv path 11 "python") w = (Ok df, w1) ->
  ascii_labels df ->
  ~ In "Volt" (map strip (columns df)) ->
  run h (DataPreprocess.remove_missing path) w
  = (Raised (mkExn KeyError [Lit "['Volt']"]), w1,
     [Called (pd_read_csv path 11 "python")]).
Proof.
  intros Hread _ Hno. rewrite run_remove_missing, Hread.
  unfold volt_column.
  assert (Hidx : forall cols, ~ In "Volt" cols ->
                 DataPreprocess.index_of "Volt" cols = None).
  { induction cols as [|c cols IH]; intros Hnot; simpl; [reflexivity|].
    destruct (String.eqb c "Volt") eqn:Hc.
    - apply String.eqb_eq in Hc. subst c. exfalso. apply Hnot. now left.
    - rewrite IH; [reflexivity|]. intros Hin. apply Hnot. now right. }
  now rewrite (Hidx _ Hno).
Qed.

Lemma remove_missing_without_volt_column_witness :
  run Lab.lab (DataPreprocess.remove_missing "current.csv")
    (mkWorld [] []
       (Lab.mkLab [("current.csv", mkDF ["Time"; " Amp "] [[Some 0%Q; Some 1%Q]])]
          false [] O))
  = (Raised (mkExn KeyError [Lit "['Volt']"]),
     mkWorld [] []
       (Lab.mkLab [("current.csv", mkDF ["Time"; " Amp "] [[Some 0%Q; Some 1%Q]])]
          false [] O),
     [Called (pd_read_csv "current.csv" 11 "python")]).
Proof.
  apply (remove_missing_without_volt_column Lab.lab "current.csv" _ _
           (mkDF ["Time"; " Amp "] [[Some 0%Q; Some 1%Q]])).
  - reflexivity.
  - unfold ascii_labels. simpl. repeat constructor.
  - simpl. intros [H|[H|[]]]; discriminate H.
Defined.

(** X2: When the CSV cannot be read, the exception of the reader leaves
    [remove_missing] as it is, and nothing else is attempted. *)
Theorem remove_missing_read_failure {Env : Type} (h : Handler Env)
    (path : string) (w w1 : World Env) (e : Exn) :
  h _ (pd_read_csv path 11 "python") w = (Raised e, w1) ->
  run h (DataPreprocess.remove_missing path) w
  = (Raised e, w1, [Called (pd_read_csv path 11 "python")]).
Proof.
  intros Hread. now rewrite run_remove_missing, Hread.
Qed.

Lemma remove_missing_read_failure_witness :
  run Lab.lab (DataPreprocess.remove_missing "nowhere.csv") (Lab.bench [] false)
  = (Raised Lab.no_such_file, Lab.bench [] false,
     [Called (pd_read_csv "nowhere.csv" 11 "python")]).
Proof.
  apply (remove_missing_read_failure Lab.lab "nowhere.csv" (Lab.bench [] false)
           (Lab.bench [] false) Lab.no_such_file).
  reflexivity.
Defined.

(** X3: Whatever the CSV holds and whatever the reader does, an array that
    [remove_missing] returns has exactly 1,400,000 samples, and the reader
    was called once, skipping 11 lines. *)
Theorem remove_missing_returns_full_length {Env : Type} (h : Handler Env)
    (path : string) (w w1 : World Env) (eeg : array1) (t : list Event) :
  run h (DataPreprocess.remove_missing path) w = (Ok eeg, w1, t) ->
  len eeg = 1400000 /\ t = [Called (pd_read_csv path 11 "python")].
Proof.
  rewrite run_remove_missing.
  destruct (h DataFrame (pd_read_csv path 11 "python") w) as [[df|e] w2];
    [|discriminate].
  destruct (volt_column df) as [vals|]; [|discriminate].
  destruct (len vals =? DataPreprocess.expected_samples) eqn:Hlen;
    [|discriminate].
  intros Hrun. injection Hrun as <- _ <-.
  split; [now apply Z.eqb_eq in Hlen | reflexivity].
Qed.

Lemma run_remove_missing_archive :
  run Lab.lab (DataPreprocess.remove_missing "session.csv") Lab.archive
  = (Ok (repeat 1%Q Lab.full_count), Lab.archive,
     [Called (pd_read_csv "session.csv" 11 "python")]).
Proof.
  rewrite run_remove_missing.
  change (Lab.lab DataFrame (pd_read_csv "session.csv" 11 "python") Lab.archive)
    with (@Ok DataFrame Lab.full_session, Lab.archive).
  cbv beta iota.
  rewrite volt_column_full_session, len_repeat_full_count. reflexivity.
Qed.

Lemma remove_missing_returns_full_length_witness :
  len (repeat 1%Q Lab.full_count) = 1400000
  /\ [Called (pd_read_csv "session.csv" 11 "python")]
     = [Called (pd_read_csv "session.csv" 11 "python")].
Proof.
  apply (remove_missing_returns_full_length Lab.lab "session.csv" Lab.archive
           Lab.archive (repeat 1%Q Lab.full_count)
           [Called (pd_read_csv "session.csv" 11 "python")]).
  exact run_remove_missing_archive.
Defined.

Lemma present_volts_skips (volt : nat) (before after : list (list (option Q)))
    (row : list (option Q)) :
  DataPreprocess.cell volt row = None ->
  present_volts volt (before ++ row :: after)
  = present_volts volt (before ++ after).
Proof.
  intros Hcell. unfold present_volts. rewrite !flat_map_app. simpl.
  now rewrite Hcell.
Qed.

(** X4: A row without a voltage does not count: for a CSV with ASCII labels
    of which exactly one is "Volt" once trimmed, [remove_missing] returns
    the same array, or raises the same exception with the same count, as it
    does for the CSV without that row, wherever the row stands. *)
Theorem row_without_voltage_is_skipped {Env : Type} (h : Handler Env)
    (path : string) (w w1 w' w1' : World Env) (cols : list string)
    (before after : list (list (option Q))) (row : list (option Q))
    (volt : nat) :
  h _ (pd_read_csv path 11 "python") w = (Ok (mkDF cols (before ++ after)), w1) ->
  h _ (pd_read_csv path 11 "python") w'
  = (Ok (mkDF cols (before ++ row :: after)), w1') ->
  Forall (fun label => ascii_text label = true) cols ->
  count_occ string_dec (map strip cols) "Volt" = 1%nat ->
  DataPreprocess.index_of "Volt" (map strip cols) = Some volt ->
  DataPreprocess.cell volt row = None ->
  fst (fst (run h (DataPreprocess.remove_missing path) w'))
  = fst (fst (run h (DataPreprocess.remove_missing path) w)).
Proof.
  intros Hread Hread' _ _ Hidx Hcell.
  rewrite !run_remove_missing, Hread, Hread'.
  unfold volt_column. simpl columns. simpl rows. rewrite Hidx.
  rewrite (present_volts_skips volt before after row Hcell).
  destruct (len _ =? DataPreprocess.expected_samples); reflexivity.
Qed.

Lemma row_without_voltage_is_skipped_witness :
  fst (fst (run Lab.lab (DataPreprocess.remove_missing "short.csv")
              (Lab.bench [] false)))
  = fst (fst (run Lab.lab (DataPreprocess.remove_missing "short.csv")
                (mkWorld [] []
                   (Lab.mkLab
                      [("short.csv",
                        mkDF ["Time"; " Volt "]
                          ([[Some 0%Q; Some 1%Q]] ++ [[Some 2%Q; Some 3%Q]]))]
                      false [] O)))).
Proof.
  apply (row_without_voltage_is_skipped Lab.lab "short.csv"
           (mkWorld [] []
              (Lab.mkLab
                 [("short.csv",
                   mkDF ["Time"; " Volt "]
                     ([[Some 0%Q; Some 1%Q]] ++ [[Some 2%Q; Some 3%Q]]))]
                 false [] O))
           (mkWorld [] []
              (Lab.mkLab
                 [("short.csv",
                   mkDF ["Time"; " Volt "]
                     ([[Some 0%Q; Some 1%Q]] ++ [[Some 2%Q; Some 3%Q]]))]
                 false [] O))
           (Lab.bench [] false) (Lab.bench [] false) ["Time"; " Volt "]
           [[Some 0%Q; Some 1%Q]] [[Some 2%Q; Some 3%Q]] [Some 1%Q; None] 1%nat).
  - reflexivity.
  - reflexivity.
  - repeat constructor.
  - reflexivity.
  - reflexivity.
  - reflexivity.
Defined.

(** ** Conversion: the container that is built *)

(** X5: When the write succeeds and leaves the objects alone, [convert_to_fif]
    returns a reference that was not in the store before, to a container
    with one channel "EEG" of type "eeg" at 5000 Hz that holds the samples
    it was given, all of them and in their order; the objects that were in
    the store are as they were, and the message names the file. *)
Theorem convert_to_fif_builds_one_channel {Env : Type} (h : Handler Env)
    (eeg : array1) (w w1 : World Env) (raw : loc) (msg : Msg)
    (t : list Event) :
  save_keeps_store h ->
  run h (DataPreprocess.convert_to_fif eeg) w = (Ok (inl (raw, msg)), w1, t) ->
  nth_error (heap w) raw = None
  /\ nth_error (heap w1) raw
     = Some (mkRaw [eeg] (mkInfo ["EEG"] 5000%Q ["eeg"]))
  /\ (forall o, nth_error (heap w1) raw = Some o ->
                n_times o = List.length eeg)
  /\ (forall r o, nth_error (heap w) r = Some o ->
                  nth_error (heap w1) r = Some o)
  /\ msg = [Lit "CSV converted to FIF and saved at "; Lit "eeg_data_raw.fif"]
  /\ t = [Called (raw_save raw "eeg_data_raw.fif" true)].
Proof.
  intros Hsave Hrun.
  rewrite run_convert_to_fif in Hrun. cbv zeta in Hrun.
  destruct (h unit (raw_save (List.length (heap w)) "eeg_data_raw.fif" true)
              (set_heap w (heap w ++ [mkRaw [eeg] (mkInfo ["EEG"] 5000%Q ["eeg"])])))
    as [[[]|e] w0] eqn:Hcall; [|discriminate Hrun].
  injection Hrun as <- <- <- <-.
  apply Hsave in Hcall. simpl in Hcall.
  assert (Hnew : nth_error (heap w0) (List.length (heap w))
                 = Some (mkRaw [eeg] (mkInfo ["EEG"] 5000%Q ["eeg"]))).
  { rewrite Hcall, nth_error_app2, Nat.sub_diag by lia. reflexivity. }
  repeat split.
  - apply nth_error_None. lia.
  - exact Hnew.
  - intros o Ho. rewrite Hnew in Ho. injection Ho as <-. reflexivity.
  - intros r o Ho. rewrite Hcall, nth_error_app1; [exact Ho|].
    apply nth_error_Some. congruence.
Qed.

Lemma convert_to_fif_builds_one_channel_witness :
  nth_error (heap (Lab.bench [Lab.slow] false)) 1%nat = None
  /\ nth_error
       (heap (snd (fst (run Lab.lab (DataPreprocess.convert_to_fif [7; 8]%Q)
                          (Lab.bench [Lab.slow] false))))) 1%nat
     = Some (mkRaw [[7; 8]%Q] (mkInfo ["EEG"] 5000%Q ["eeg"]))
  /\ (forall o,
        nth_error
          (heap (snd (fst (run Lab.lab (DataPreprocess.convert_to_fif [7; 8]%Q)
                             (Lab.bench [Lab.slow] false))))) 1%nat = Some o ->
        n_times o = 2%nat)
  /\ (forall r o,
        nth_error (heap (Lab.bench [Lab.slow] false)) r = Some o ->
        nth_error
          (heap (snd (fst (run Lab.lab (DataPreprocess.convert_to_fif [7; 8]%Q)
                             (Lab.bench [Lab.slow] false))))) r = Some o)
  /\ [Lit "CSV converted to FIF and saved at "; Lit "eeg_data_raw.fif"]
     = [Lit "CSV converted to FIF and saved at "; Lit "eeg_data_raw.fif"]
  /\ [Called (raw_save 1%nat "eeg_data_raw.fif" true)]
     = [Called (raw_save 1%nat "eeg_data_raw.fif" true)].
Proof.
  apply (convert_to_fif_builds_one_channel Lab.lab [7; 8]%Q
           (Lab.bench [Lab.slow] false) _ 1%nat _ _ lab_save_keeps_store).
  reflexivity.
Defined.

(** ** Conditioning: what the stages keep *)

Lemma nth_error_update_other {A} (l : list A) (i j : nat) (x : A) :
  i <> j -> nth_error (update l i x) j = nth_error l j.
Proof.
  revert i j. induction l as [|y l IH]; intros [|i] [|j] Hij; simpl;
    try reflexivity; try congruence.
  apply IH. congruence.
Qed.

Lemma update_length {A} (l : list A) (i : nat) (x : A) :
  List.length (update l i x) = List.length l.
Proof.
  revert i. induction l as [|y l IH]; intros [|i]; simpl; try reflexivity.
  now rewrite IH.
Qed.

(** X6: When the library's detrend returns an array and leaves the world alone,
    [apply_detrend] returns the container it was given, now holding that
    array; the container keeps its channel names, types and sampling rate,
    every other object of the store is untouched, and nothing is printed. *)
Theorem apply_detrend_replaces_data_only {Env : Type} (h : Handler Env)
    (raw : loc) (w : World Env) (o : RawObj) (data1 : array2) :
  nth_error (heap w) raw = Some o ->
  h _ (mne_filter_detrend (_data o) 1) w = (Ok data1, w) ->
  exists w1,
    run h (Filter.apply_detrend raw) w
    = (Ok raw, w1, [Called (mne_filter_detrend (_data o) 1)])
    /\ nth_error (heap w1) raw = Some (mkRaw data1 (info o))
    /\ (forall r, r <> raw -> nth_error (heap w1) r = nth_error (heap w) r)
    /\ List.length (heap w1) = List.length (heap w)
    /\ stdout w1 = stdout w
    /\ env w1 = env w.
Proof.
  intros Hobj Hcall.
  rewrite (run_apply_detrend h raw w o Hobj), Hcall, Hobj.
  eexists. split; [reflexivity|]. simpl. repeat split.
  - eapply nth_error_update. exact Hobj.
  - intros r Hr. apply nth_error_update_other. congruence.
  - apply update_length.
Qed.

Lemma apply_detrend_replaces_data_only_witness :
  exists w1,
    run Lab.lab (Filter.apply_detrend 1%nat) (Lab.bench [Lab.slow; Lab.fast] false)
    = (Ok 1%nat, w1, [Called (mne_filter_detrend (_data Lab.fast) 1)])
    /\ nth_error (heap w1) 1%nat = Some (mkRaw (_data Lab.fast) (info Lab.fast))
    /\ (forall r, r <> 1%nat ->
                  nth_error (heap w1) r
                  = nth_error (heap (Lab.bench [Lab.slow; Lab.fast] false)) r)
    /\ List.length (heap w1)
       = List.length (heap (Lab.bench [Lab.slow; Lab.fast] false))
    /\ stdout w1 = stdout (Lab.bench [Lab.slow; Lab.fast] false)
    /\ env w1 = env (Lab.bench [Lab.slow; Lab.fast] false).
Proof.
  apply (apply_detrend_replaces_data_only Lab.lab 1%nat
           (Lab.bench [Lab.slow; Lab.fast] false) Lab.fast (_data Lab.fast)).
  - reflexivity.
  - reflexivity.
Defined.

Lemma lab_detrend_keeps_shape : detrend_keeps_shape Lab.lab.
Proof.
  intros data order w data1 w1. simpl. intros Hcall.
  injection Hcall as <- <-. split; reflexivity.
Qed.

Lemma lab_filter_keeps_shape : filter_keeps_shape Lab.lab.
Proof.
  intros r l_freq h_freq picks w w1 o Hobj. simpl. unfold Lab.on_object.
  rewrite Hobj.
  destruct (Qle_bool (nyquist o) h_freq); [discriminate|].
  intros Hcall. injection Hcall as <-. now exists o.
Qed.

(** X7: With libraries whose detrend, notch filter and band-pass filter keep
    length and rate, the whole chain does: a container that
    [apply_all_filters] returns is the one it was given, with as many
    samples per channel and the same sampling rate as before. *)
Theorem apply_all_filters_keeps_shape {Env : Type} (h : Handler Env)
    (raw r' : loc) (w w' : World Env) (o : RawObj) (t : list Event) :
  detrend_keeps_shape h ->
  notch_keeps_shape h ->
  filter_keeps_shape h ->
  nth_error (heap w) raw = Some o ->
  run h (Filter.apply_all_filters raw) w = (Ok r', w', t) ->
  r' = raw
  /\ exists o', nth_error (heap w') raw = Some o'
                /\ n_times o' = n_times o
                /\ sfreq (info o') = sfreq (info o).
Proof.
  intros Hdetrend Hnotch Hfilter Hobj.
  unfold Filter.apply_all_filters. rewrite run_bind.
  rewrite (run_apply_detrend h raw w o Hobj).
  destruct (h array2 (mne_filter_detrend (_data o) 1) w) as [[data1|e] w1]
    eqn:Hcall; [|discriminate].
  destruct (Hdetrend _ _ _ _ _ Hcall) as [-> Hrows].
  rewrite Hobj. cbn [then_run].
  set (w2 := set_heap w (update (heap w) raw (mkRaw data1 (info o)))).
  assert (Hobj2 : nth_error (heap w2) raw = Some (mkRaw data1 (info o)))
    by (simpl; eapply nth_error_update; exact Hobj).
  rewrite run_bind.
  destruct (run h (Filter.apply_notch_filter raw) w2) as [[[r2|e2] w3] t2]
    eqn:Hn; cbn [then_run]; [|discriminate].
  destruct (one_call_stage_ok h _ raw r2 w2 w3 t2 Hn) as (-> & _ & [] & Hcall2).
  destruct (Hnotch _ _ _ _ _ _ Hobj2 Hcall2) as (o3 & Hobj3 & Hn3 & Hs3).
  rewrite run_bind.
  destruct (run h (Filter.apply_bandpass_filter raw) w3) as [[[r3|e3] w4] t3]
    eqn:Hb; cbn [then_run run]; [|discriminate].
  destruct (one_call_stage_ok h _ raw r3 w3 w4 t3 Hb) as (-> & _ & [] & Hcall3).
  destruct (Hfilter _ _ _ _ _ _ _ Hobj3 Hcall3) as (o4 & Hobj4 & Hn4 & Hs4).
  intros Hrun. injection Hrun as <- <- _.
  split; [reflexivity|]. exists o4. repeat split.
  - exact Hobj4.
  - rewrite Hn4, Hn3. exact Hrows.
  - rewrite Hs4, Hs3. reflexivity.
Qed.

Lemma apply_all_filters_keeps_shape_witness :
  0%nat = 0%nat
  /\ exists o',
       nth_error
         (heap (snd (fst (run Lab.lab (Filter.apply_all_filters 0%nat)
                            (Lab.bench [Lab.fast] false))))) 0%nat = Some o'
       /\ n_times o' = n_times Lab.fast
       /\ sfreq (info o') = sfreq (info Lab.fast).
Proof.
  apply (apply_all_filters_keeps_shape Lab.lab 0%nat 0%nat
           (Lab.bench [Lab.fast] false) _ Lab.fast
           (snd (run Lab.lab (Filter.apply_all_filters 0%nat)
                   (Lab.bench [Lab.fast] false)))
           lab_detrend_keeps_shape lab_notch_keeps_shape lab_filter_keeps_shape).
  - reflexivity.
  - reflexivity.
Defined.

(** ** Cropped plots: the window that is asked for *)

Lemma clamp_ordered (t_last start_time end_time : Q) :
  (0 <= t_last)%Q -> (start_time <= end_time)%Q ->
  (start_time <= t_last)%Q -> (0 <= end_time)%Q ->
  (py_max 0 start_time <= py_min t_last end_time)%Q.
Proof.
  intros Hlast Horder Hstart Hend. unfold py_max, py_min.
  destruct (Qle_bool start_time 0), (Qle_bool t_last end_time); assumption.
Qed.

(** The last time of a container with [n + 1] samples per channel. *)
Lemma last_time (o : RawObj) (n : nat) :
  n_times o = S n ->
  times o <> []
  /\ last (times o) 0%Q = (inject_Z (Z.of_nat n) / sfreq (info o))%Q.
Proof.
  intros Hn. unfold times. rewrite Hn, seq_S, map_app. simpl map. split.
  - intros Hnil. apply app_eq_nil in Hnil. destruct Hnil as [_ Hnil].
    discriminate Hnil.
  - apply last_last.
Qed.

(** Every event of a finished trace is either the one that [H] is about or
    one of which nothing is asked. *)
Ltac trace_done H :=
  repeat first [apply Forall_nil | apply Forall_cons];
  first [exact H | exact I].

(** On a container that has samples, every crop that
    [plot_cropped_event_segment] asks for is a crop of a copy, not of the
    container itself, and its window lies inside the recording, provided
    the requested window is ordered and overlaps the recording. *)
Lemma cropped_trace_within {Env : Type} (h : Handler Env) (raw : loc)
    (event_name : string) (start_time end_time : Q) (w : World Env)
    (o : RawObj) :
  nth_error (heap w) raw = Some o ->
  times o <> [] ->
  (0 <= last (times o) 0)%Q ->
  (start_time <= end_time)%Q ->
  (start_time <= last (times o) 0)%Q ->
  (0 <= end_time)%Q ->
  Forall (crops_copy_within raw (last (times o) 0%Q))
    (snd (run h (Plot.plot_cropped_event_segment raw event_name start_time
                   end_time) w)).
Proof.
  intros Hobj Hne Hlast Horder Hstart Hend.
  unfold Plot.plot_cropped_event_segment, get_data.
  cbn [bind prim run prim_step reraise]. rewrite Hobj.
  cbn [bind prim run prim_step reraise].
  set (t_last := last (times o) 0%Q) in *.
  destruct (times o) as [|t0 ts] eqn:Htimes; [congruence|].
  cbn [last_item bind run prim_step reraise]. rewrite Hobj.
  cbn [bind prim run prim_step reraise call].
  destruct (h Q (np_std (_data o)) w) as [[sd|e] w1];
    cbn [bind prim run prim_step reraise call snd heap stdout env];
    [|trace_done I].
  destruct (nth_error (heap w1) raw) as [o1|] eqn:Hobj1;
    cbn [bind prim run prim_step reraise call snd heap stdout env set_heap];
    [|trace_done I].
  assert (Hcrop : crops_copy_within raw t_last
                    (Called (raw_crop (List.length (heap w1))
                               (py_max 0 start_time)
                               (py_min t_last end_time)))).
  { unfold crops_copy_within. simpl. repeat split.
    - assert (raw < List.length (heap w1))%nat
        by (apply nth_error_Some; congruence). lia.
    - apply py_max_lower.
    - now apply clamp_ordered.
    - apply py_min_upper. }
  match goal with
  | |- context [h unit (raw_crop ?r ?a ?b) ?w0] =>
      destruct (h unit (raw_crop r a b) w0) as [[[]|e] w2]
  end; cbn [bind prim run prim_step reraise call snd];
    [|trace_done Hcrop].
  match goal with
  | |- context [h Figure ?c ?w0] => destruct (h Figure c w0) as [[fig|e] w3]
  end; cbn [bind prim run prim_step reraise call snd];
    [|trace_done Hcrop].
  match goal with
  | |- context [h unit (fig_savefig ?f ?p ?d) ?w0] =>
      destruct (h unit (fig_savefig f p d) w0) as [[[]|e] w4]
  end; cbn [bind prim run prim_step reraise call snd];
    [|trace_done Hcrop].
  match goal with
  | |- context [h unit (plt_close ?f) ?w0] =>
      destruct (h unit (plt_close f) w0) as [[[]|e] w5]
  end; cbn [bind prim run prim_step reraise call snd];
    trace_done Hcrop.
Qed.

(** X11: On a container with [n + 1] samples per channel, whose last time is
    [n / sfreq], a window that is ordered, starts no later than the last
    time and ends no earlier than 0 is cropped as follows: whatever the
    libraries do, every crop that [plot_cropped_event_segment] asks for is a
    crop of a copy, never of the container itself, from a start that is at
    least 0 to an end that is at most the last time and not before the
    start. *)
Theorem plot_cropped_window_within_recording {Env : Type} (h : Handler Env)
    (raw : loc) (event_name : string) (start_time end_time : Q)
    (w : World Env) (o : RawObj) (n : nat) :
  nth_error (heap w) raw = Some o ->
  n_times o = S n ->
  (0 < sfreq (info o))%Q ->
  (start_time <= end_time)%Q ->
  (start_time <= inject_Z (Z.of_nat n) / sfreq (info o))%Q ->
  (0 <= end_time)%Q ->
  Forall (crops_copy_within raw (inject_Z (Z.of_nat n) / sfreq (info o))%Q)
    (snd (run h (Plot.plot_cropped_event_segment raw event_name start_time
                   end_time) w)).
Proof.
  intros Hobj Hn Hrate Horder Hstart Hend.
  destruct (last_time o n Hn) as [Hne Hlast].
  rewrite <- Hlast in *.
  apply cropped_trace_within; try assumption.
  rewrite Hlast. apply Qle_shift_div_l; [exact Hrate|].
  rewrite Qmult_0_l. unfold Qle, inject_Z. simpl. lia.
Qed.

Lemma plot_cropped_window_within_recording_witness :
  Forall (crops_copy_within 0%nat (inject_Z (Z.of_nat 10) / 1)%Q)
    (snd (run Lab.lab (Plot.plot_cropped_event_segment 0%nat "Sound On" (-5) 30)
            (Lab.bench [Lab.ten_seconds] false))).
Proof.
  apply (plot_cropped_window_within_recording Lab.lab 0%nat "Sound On" (-5) 30
           (Lab.bench [Lab.ten_seconds] false) Lab.ten_seconds 10%nat).
  - reflexivity.
  - reflexivity.
  - reflexivity.
  - unfold Qle. simpl. lia.
  - unfold Qle. simpl. lia.
  - unfold Qle. simpl. lia.
Defined.

(** The same run, evaluated: the window from -5 s to 30 s is cropped from
    0 s to 10 s on the copy, and the plot is saved. *)
Example plot_cropped_clamps_both_ends :
  snd (run Lab.lab (Plot.plot_cropped_event_segment 0%nat "Sound On" (-5) 30)
         (Lab.bench [Lab.ten_seconds] false))
  = [Called (np_std (_data Lab.ten_seconds));
     Called (raw_crop 1%nat 0 10);
     Called (raw_plot 1%nat [("eeg", 2%Q)] 1 10
               [Lit "EEG Signal: "; Lit "Sound On"; Lit " (Cropped)"] false);
     Called (fig_savefig 0%nat
               "wu_venv/ssEEG/denoising_MNE/output/sound_on_cropped_segment.png"
               300);
     Called (plt_close 0%nat)].
Proof. vm_compute. reflexivity. Qed.

Lemma full_count_succ : Lab.full_count = S (Z.to_nat 1399999).
Proof.
  unfold Lab.full_count, DataPreprocess.expected_samples.
  rewrite <- Z2Nat.inj_succ by lia. reflexivity.
Qed.

(** X12: The events of [get_events_dict] fit a recording of the expected length:
    on a container of 1,400,000 samples at 5000 Hz, for every event of the
    dictionary, every crop that [plot_cropped_event_segment] asks for is a
    crop of a copy with a window inside the recording, which ends at
    279.9998 s. *)
Theorem events_fit_expected_recording {Env : Type} (h : Handler Env)
    (raw : loc) (w : World Env) (o : RawObj)
    (event_name : string) (start_time end_time : Q) :
  nth_error (heap w) raw = Some o ->
  n_times o = Z.to_nat DataPreprocess.expected_samples ->
  sfreq (info o) = DataPreprocess.sfreq_at_construction ->
  In (event_name, (start_time, end_time)) Events.get_events_dict ->
  Forall (crops_copy_within raw (1399999 / 5000)%Q)
    (snd (run h (Plot.plot_cropped_event_segment raw event_name start_time
                   end_time) w)).
Proof.
  intros Hobj Hn Hrate Hin.
  fold Lab.full_count in Hn. rewrite full_count_succ in Hn.
  destruct (last_time o _ Hn) as [Hne Hlast].
  rewrite Hrate, Z2Nat.id in Hlast by lia.
  change (inject_Z 1399999 / DataPreprocess.sfreq_at_construction)%Q
    with (1399999 / 5000)%Q in Hlast.
  rewrite <- Hlast.
  simpl in Hin.
  destruct Hin as [Hev|[Hev|[Hev|[Hev|[]]]]]; injection Hev as <- <- <-;
    apply cropped_trace_within; try assumption; rewrite ?Hlast;
    unfold Qle; simpl; lia.
Qed.

Lemma events_fit_expected_recording_witness :
  Forall (crops_copy_within 0%nat (1399999 / 5000)%Q)
    (snd (run Lab.lab
            (Plot.plot_cropped_event_segment 0%nat "Stop Touching" 173 280)
            (mkWorld [Lab.recording 5000 (repeat 0%Q Lab.full_count)] []
               (Lab.mkLab [] false [] O)))).
Proof.
  apply (events_fit_expected_recording Lab.lab 0%nat _
           (Lab.recording 5000 (repeat 0%Q Lab.full_count))).
  - reflexivity.
  - apply repeat_length.
  - reflexivity.
  - simpl. right. right. right. left. reflexivity.
Defined.

(** X13: A container without samples has no last time: asked to plot it,
    [plot_cropped_event_segment] raises an IndexError before it calls any
    library, prints anything or copies the container. *)
Theorem plot_cropped_empty_container {Env : Type} (h : Handler Env)
    (raw : loc) (event_name : string) (start_time end_time : Q)
    (w : World Env) (o : RawObj) :
  nth_error (heap w) raw = Some o ->
  n_times o = O ->
  exists e,
    run h (Plot.plot_cropped_event_segment raw event_name start_time end_time) w
    = (Raised e, w, [])
    /\ exn_class e = IndexError.
Proof.
  intros Hobj Hn.
  unfold Plot.plot_cropped_event_segment.
  cbn [bind prim run prim_step reraise]. rewrite Hobj.
  cbn [bind prim run prim_step reraise].
  unfold times. rewrite Hn. simpl.
  eexists. split; reflexivity.
Qed.

Lemma plot_cropped_empty_container_witness :
  exists e,
    run Lab.lab (Plot.plot_cropped_event_segment 0%nat "Sound On" 0 40)
      (Lab.bench [Lab.recording 5000 []] false)
    = (Raised e, Lab.bench [Lab.recording 5000 []] false, [])
    /\ exn_class e = IndexError.
Proof.
  apply (plot_cropped_empty_container Lab.lab 0%nat "Sound On" 0 40
           (Lab.bench [Lab.recording 5000 []] false) (Lab.recording 5000 [])).
  - reflexivity.
  - reflexivity.
Defined.

Ltac files_done :=
  repeat first [apply Forall_nil | apply Forall_cons];
  first [left; reflexivity | right; reflexivity].

(** X14: For an event name that is ASCII text, whatever the container, the
    window and the libraries, the only file that
    [plot_cropped_event_segment] writes is the picture of the event,
    "<event name in lower case, spaces as underscores>_cropped_segment.png"
    in the output directory; in particular it never saves the container. *)
Theorem plot_cropped_writes_only_its_picture {Env : Type} (h : Handler Env)
    (raw : loc) (event_name : string) (start_time end_time : Q)
    (w : World Env) :
  ascii_text event_name = true ->
  Forall (fun ev => written_file ev = None
                    \/ written_file ev = Some (cropped_save_path event_name))
    (snd (run h (Plot.plot_cropped_event_segment raw event_name start_time
                   end_time) w)).
Proof.
  intros _.
  unfold Plot.plot_cropped_event_segment, get_data.
  cbn [bind prim run prim_step reraise].
  destruct (nth_error (heap w) raw) as [o|] eqn:Hobj;
    cbn [bind prim run prim_step reraise snd]; [|files_done].
  destruct (times o) as [|t0 ts];
    cbn [last_item bind prim run prim_step reraise snd]; [files_done|].
  rewrite Hobj. cbn [bind prim run prim_step reraise call].
  destruct (h Q (np_std (_data o)) w) as [[sd|e] w1];
    cbn [bind prim run prim_step reraise call snd heap stdout env];
    [|files_done].
  destruct (nth_error (heap w1) raw) as [o1|];
    cbn [bind prim run prim_step reraise call snd heap stdout env set_heap];
    [|files_done].
  match goal with
  | |- context [h unit (raw_crop ?r ?a ?b) ?w0] =>
      destruct (h unit (raw_crop r a b) w0) as [[[]|e] w2]
  end; cbn [bind prim run prim_step reraise call snd];
    [|files_done].
  match goal with
  | |- context [h Figure ?c ?w0] => destruct (h Figure c w0) as [[fig|e] w3]
  end; cbn [bind prim run prim_step reraise call snd];
    [|files_done].
  match goal with
  | |- context [h unit (fig_savefig ?f ?p ?d) ?w0] =>
      destruct (h unit (fig_savefig f p d) w0) as [[[]|e] w4]
  end; cbn [bind prim run prim_step reraise call snd];
    [|files_done].
  match goal with
  | |- context [h unit (plt_close ?f) ?w0] =>
      destruct (h unit (plt_close f) w0) as [[[]|e] w5]
  end; cbn [bind prim run prim_step reraise call snd];
    files_done.
Qed.

Lemma plot_cropped_writes_only_its_picture_witness :
  Forall (fun ev => written_file ev = None
                    \/ written_file ev
                       = Some "wu_venv/ssEEG/denoising_MNE/output/sound_on_cropped_segment.png")
    (snd (run Lab.lab (Plot.plot_cropped_event_segment 0%nat "Sound On" (-5) 30)
            (Lab.bench [Lab.ten_seconds] false))).
Proof.
  apply (plot_cropped_writes_only_its_picture Lab.lab 0%nat "Sound On" (-5) 30
           (Lab.bench [Lab.ten_seconds] false)).
  reflexivity.
Defined.


(** ** Time-frequency analysis: what is asked of the libraries *)

Ltac no_file_done :=
  repeat first [apply Forall_nil | apply Forall_cons]; reflexivity.

(** X15: Whatever the libraries do, [compute_tfr_multitaper] writes no file: the
    picture is shown and not saved, and the container is not saved either. *)
Theorem compute_tfr_multitaper_writes_no_file {Env : Type} (h : Handler Env)
    (raw : loc) (w : World Env) :
  Forall (fun ev => written_file ev = None)
    (snd (run h (FFT.compute_tfr_multitaper raw) w)).
Proof.
  unfold FFT.compute_tfr_multitaper, FFT.tfr_body.
  cbn [try_except bind prim call run prim_step reraise].
  match goal with
  | |- context [h Epochs ?c ?w0] => destruct (h Epochs c w0) as [[ep|e] w1]
  end; cbn [try_except bind prim call run prim_step reraise snd];
    [|no_file_done].
  match goal with
  | |- context [h TFR ?c ?w0] => destruct (h TFR c w0) as [[p|e] w2]
  end; cbn [try_except bind prim call run prim_step reraise snd];
    [|no_file_done].
  match goal with
  | |- context [h TFR ?c ?w0] => destruct (h TFR c w0) as [[pa|e] w3]
  end; cbn [try_except bind prim call run prim_step reraise snd];
    [|no_file_done].
  match goal with
  | |- context [h Figure ?c ?w0] => destruct (h Figure c w0) as [[fig|e] w4]
  end; cbn [try_except bind prim call run prim_step reraise snd];
    [|no_file_done].
  match goal with
  | |- context [h unit ?c ?w0] => destruct (h unit c w0) as [[[]|e] w5]
  end; cbn [try_except bind prim call run prim_step reraise snd];
    no_file_done.
Qed.

(** Use what is known of the answer of the library to the next call. *)
Ltac library_said H :=
  match goal with
  | |- context [?h ?X ?c ?w] =>
      match type of H with
      | h X _ _ = _ =>
          let E := fresh "E" in
          assert (E : h X c w = _) by exact H;
          rewrite E; clear E;
          cbn [try_except bind prim call run prim_step reraise]
      end
  end.

(** X16: When every library call returns, [compute_tfr_multitaper] has cut the
    container into epochs of 3 s that overlap by 1 s, computed the multitaper
    transform of these epochs on the grid of 100 frequencies from 0.5 Hz to
    40 Hz, averaged it, plotted the average and shown the figure, in this
    order, each step on what the step before returned; it has printed its
    first and its last line and nothing in between. *)
Theorem compute_tfr_multitaper_success {Env : Type} (h : Handler Env)
    (raw : loc) (w w1 w2 w3 w4 w5 : World Env)
    (epochs : Epochs) (power power_avg : TFR) (fig : Figure) :
  h _ (mne_make_fixed_length_epochs raw 3.0 1.0)
    (mkWorld (heap w)
       (stdout w
          ++ [[Lit "Performing Time-Frequency Analysis using Multitaper method..."]])
       (env w))
  = (Ok epochs, w1) ->
  h _ (epochs_compute_tfr epochs "multitaper" (np_linspace 0.5 40 100) 1.5 2.0
         false) w1 = (Ok power, w2) ->
  h _ (tfr_average power) w2 = (Ok power_avg, w3) ->
  h _ (tfr_plot power_avg (None, Some 0%Q) "logratio" "Averaged TFR Multitaper")
    w3 = (Ok fig, w4) ->
  h _ plt_show w4 = (Ok tt, w5) ->
  run h (FFT.compute_tfr_multitaper raw) w
  = (Ok tt,
     mkWorld (heap w5)
       (stdout w5 ++ [[Lit "TFR analysis and averaged plotting completed."]])
       (env w5),
     [Called (mne_make_fixed_length_epochs raw 3.0 1.0);
      Called (epochs_compute_tfr epochs "multitaper" (np_linspace 0.5 40 100)
                1.5 2.0 false);
      Called (tfr_average power);
      Called (tfr_plot power_avg (None, Some 0%Q) "logratio"
                "Averaged TFR Multitaper");
      Called plt_show]).
Proof.
  intros Hepochs Hpower Havg Hplot Hshow.
  unfold FFT.compute_tfr_multitaper, FFT.tfr_body.
  cbn [try_except bind prim call run prim_step reraise].
  library_said Hepochs. library_said Hpower. library_said Havg.
  library_said Hplot. library_said Hshow.
  reflexivity.
Qed.

Lemma compute_tfr_multitaper_success_witness :
  run Lab.lab (FFT.compute_tfr_multitaper 0%nat)
    (Lab.bench [Lab.recording 1 [0; 1; 2; 3]%Q] false)
  = (Ok tt,
     mkWorld [Lab.recording 1 [0; 1; 2; 3]%Q]
       [[Lit "Performing Time-Frequency Analysis using Multitaper method..."];
        [Lit "TFR analysis and averaged plotting completed."]]
       (Lab.mkLab [("short.csv", Lab.short_session)] false [] 1%nat),
     [Called (mne_make_fixed_length_epochs 0%nat 3.0 1.0);
      Called (epochs_compute_tfr O "multitaper" (np_linspace 0.5 40 100)
                1.5 2.0 false);
      Called (tfr_average O);
      Called (tfr_plot O (None, Some 0%Q) "logratio" "Averaged TFR Multitaper");
      Called plt_show]).
Proof.
  apply (compute_tfr_multitaper_success Lab.lab 0%nat
           (Lab.bench [Lab.recording 1 [0; 1; 2; 3]%Q] false)
           (mkWorld [Lab.recording 1 [0; 1; 2; 3]%Q]
              [[Lit "Performing Time-Frequency Analysis using Multitaper method..."]]
              (Lab.mkLab [("short.csv", Lab.short_session)] false [] O))
           (mkWorld [Lab.recording 1 [0; 1; 2; 3]%Q]
              [[Lit "Performing Time-Frequency Analysis using Multitaper method..."]]
              (Lab.mkLab [("short.csv", Lab.short_session)] false [] O))
           (mkWorld [Lab.recording 1 [0; 1; 2; 3]%Q]
              [[Lit "Performing Time-Frequency Analysis using Multitaper method..."]]
              (Lab.mkLab [("short.csv", Lab.short_session)] false [] O))
           (mkWorld [Lab.recording 1 [0; 1; 2; 3]%Q]
              [[Lit "Performing Time-Frequency Analysis using Multitaper method..."]]
              (Lab.mkLab [("short.csv", Lab.short_session)] false [] 1%nat))
           (mkWorld [Lab.recording 1 [0; 1; 2; 3]%Q]
              [[Lit "Performing Time-Frequency Analysis using Multitaper method..."]]
              (Lab.mkLab [("short.csv", Lab.short_session)] false [] 1%nat))
           O O O O); reflexivity.
Defined.

(** The frequency grid of the transform: 100 values, the first 0.5 Hz, the
    last 40 Hz. *)
Example tfr_frequency_grid :
  List.length (np_linspace 0.5 40 100) = 100%nat
  /\ nth 0 (np_linspace 0.5 40 100) 0%Q == 0.5
  /\ last (np_linspace 0.5 40 100) 0%Q == 40.
Proof. repeat split; vm_compute; reflexivity. Qed.

(** ** The events *)

(** X17: The four events of [get_events_dict] have different names and follow one
    another without gap or overlap from 0 s to 280 s; at the rate of
    5000 Hz that [convert_to_fif] sets, 280 s is exactly the 1,400,000
    samples that [remove_missing] insists on. *)
Theorem events_tile_the_recording :
  NoDup (map fst Events.get_events_dict)
  /\ consecutive 0 (map snd Events.get_events_dict) = true
  /\ snd (last (map snd Events.get_events_dict) (0, 0)%Q) = 280%Q
  /\ (280 * DataPreprocess.sfreq_at_construction
      == inject_Z DataPreprocess.expected_samples)%Q.
Proof.
  repeat split.
  - simpl. repeat constructor; simpl; intuition discriminate.
Qed.

(** ** Band-pass and resampling on their own *)

(** X8: The band-pass stage asks the library for exactly the band from 0.5 Hz
    to 30 Hz on the "eeg" channels, and nothing else; with a library whose
    filter keeps length and rate, the container that the stage returns is
    the one it was given, with as many samples and the same rate as
    before. *)
Theorem apply_bandpass_filter_keeps_shape {Env : Type} (h : Handler Env)
    (raw : loc) (w : World Env) (o : RawObj) :
  filter_keeps_shape h ->
  nth_error (heap w) raw = Some o ->
  snd (run h (Filter.apply_bandpass_filter raw) w)
  = [Called (raw_filter raw 0.5 30 "eeg")]
  /\ forall r' w' t,
       run h (Filter.apply_bandpass_filter raw) w = (Ok r', w', t) ->
       r' = raw
       /\ exists o', nth_error (heap w') raw = Some o'
                     /\ n_times o' = n_times o
                     /\ sfreq (info o') = sfreq (info o).
Proof.
  intros Hlib Hobj. split.
  - unfold Filter.apply_bandpass_filter. now rewrite run_call_then_ret.
  - intros r' w' t Hrun.
    destruct (one_call_stage_ok h _ raw r' w w' t Hrun) as (-> & _ & [] & Hcall).
    split; [reflexivity|].
    exact (Hlib raw _ _ _ w w' o Hobj Hcall).
Qed.

Lemma apply_bandpass_filter_keeps_shape_witness :
  snd (run Lab.lab (Filter.apply_bandpass_filter 0%nat)
         (Lab.bench [Lab.fast] false))
  = [Called (raw_filter 0%nat 0.5 30 "eeg")]
  /\ exists o',
       nth_error
         (heap (snd (fst (run Lab.lab (Filter.apply_bandpass_filter 0%nat)
                            (Lab.bench [Lab.fast] false))))) 0%nat = Some o'
       /\ n_times o' = 3%nat
       /\ sfreq (info o') = 5000%Q.
Proof.
  destruct (apply_bandpass_filter_keeps_shape Lab.lab 0%nat
              (Lab.bench [Lab.fast] false) Lab.fast lab_filter_keeps_shape
              eq_refl) as [Hcalls Hok].
  split; [exact Hcalls|].
  exact (proj2 (Hok 0%nat _ _ eq_refl)).
Defined.

(** X9: With a library whose resample sets the requested rate, a container that
    [apply_downsampling] returns is the one it was given and has the
    requested rate; the operation has printed one line, which names that
    rate, after the library returned. *)
Theorem apply_downsampling_sets_rate {Env : Type} (h : Handler Env)
    (raw r' : loc) (new_sfreq : Q) (w w' : World Env) (o : RawObj)
    (t : list Event) :
  resample_sets_rate h ->
  nth_error (heap w) raw = Some o ->
  run h (Filter.apply_downsampling raw new_sfreq) w = (Ok r', w', t) ->
  r' = raw
  /\ (exists o', nth_error (heap w') raw = Some o'
                 /\ sfreq (info o') = new_sfreq)
  /\ stdout w'
     = stdout (snd (h _ (raw_resample raw new_sfreq "auto") w))
         ++ [[Lit "Data downsampled to "; Num new_sfreq; Lit " Hz."]].
Proof.
  intros Hlib Hobj. rewrite run_apply_downsampling.
  destruct (h unit (raw_resample raw new_sfreq "auto") w) as [[[]|e] w1]
    eqn:Hcall; [|discriminate].
  intros Hrun. injection Hrun as <- <- _.
  repeat split. exact (Hlib _ _ _ _ _ _ Hobj Hcall).
Qed.

Lemma apply_downsampling_sets_rate_witness :
  0%nat = 0%nat
  /\ (exists o',
        nth_error
          (heap (snd (fst (run Lab.lab (Filter.apply_downsampling 0%nat 2500)
                             (Lab.bench [Lab.fast] false))))) 0%nat = Some o'
        /\ sfreq (info o') = 2500%Q)
  /\ stdout (snd (fst (run Lab.lab (Filter.apply_downsampling 0%nat 2500)
                         (Lab.bench [Lab.fast] false))))
     = stdout (snd (Lab.lab _ (raw_resample 0%nat 2500 "auto")
                      (Lab.bench [Lab.fast] false)))
         ++ [[Lit "Data downsampled to "; Num 2500; Lit " Hz."]].
Proof.
  apply (apply_downsampling_sets_rate Lab.lab 0%nat 0%nat 2500
           (Lab.bench [Lab.fast] false) _ Lab.fast
           (snd (run Lab.lab (Filter.apply_downsampling 0%nat 2500)
                   (Lab.bench [Lab.fast] false)))
           lab_resample_sets_rate).
  - reflexivity.
  - reflexivity.
Defined.
